(** * Announcement endpoints of the High School Management System API

  A shallow embedding of [src/backend/routers/announcements.py]:
  the four handlers [get_announcements], [create_announcement],
  [update_announcement] and [delete_announcement], the pymongo
  collection operations they call, and the two library functions that
  decide their behaviour ([datetime.strptime] with the format
  [%Y-%m-%d] and [date.isoformat]).

  Documents are Python dictionaries and are modelled as finite maps from
  field names to values; a collection is the list of its documents in
  natural (insertion) order.  Characters are Rocq's 8-bit [ascii], so a
  string is read as its byte sequence; [\d] of the date parser is taken
  over the ASCII digits. *)

From Stdlib Require Import ZArith String Ascii List Bool Lia.
From stdpp Require Import base option list gmap strings.

Open Scope string_scope.
Open Scope Z_scope.

(** ** Calendar dates: [datetime.date] *)

Module Date.

Record date := mk { year : Z; month : Z; day : Z }.

Definition is_leap (y : Z) : bool :=
  (y mod 4 =? 0) && (negb (y mod 100 =? 0) || (y mod 400 =? 0)).

Definition days_in_month (y m : Z) : Z :=
  if m =? 2 then (if is_leap y then 29 else 28)
  else if (m =? 4) || (m =? 6) || (m =? 9) || (m =? 11) then 30
  else 31.

(** The range check of the [date(year, month, day)] constructor
    ([MINYEAR = 1], [MAXYEAR = 9999]); it raises [ValueError] outside. *)
Definition valid (d : date) : bool :=
  (1 <=? year d) && (year d <=? 9999) &&
  (1 <=? month d) && (month d <=? 12) &&
  (1 <=? day d) && (day d <=? days_in_month (year d) (month d)).

(** Dates are ordered as the triples (year, month, day). *)
Definition ltb (a b : date) : bool :=
  (year a <? year b)
  || ((year a =? year b) &&
      ((month a <? month b) || ((month a =? month b) && (day a <? day b)))).

Definition leb (a b : date) : bool := negb (ltb b a).

Definition digit (n : Z) : ascii := ascii_of_N (48 + Z.to_N (n mod 10)).

Definition pad2 (n : Z) (k : string) : string :=
  String (digit (n / 10)) (String (digit n) k).

Definition pad4 (n : Z) (k : string) : string :=
  String (digit (n / 1000)) (String (digit (n / 100)) (pad2 n k)).

(** [date.isoformat()]: ["%04d-%02d-%02d"]. *)
Definition isoformat (d : date) : string :=
  pad4 (year d) (String "-" (pad2 (month d) (String "-" (pad2 (day d) "")))).

End Date.

(** ** [datetime.strptime(s, "%Y-%m-%d").date()]

  [_strptime] compiles the format to the regular expression
  [(?P<Y>\d\d\d\d)-(?P<m>1[0-2]|0[1-9]|[1-9])-(?P<d>3[01]|[12]\d|0[1-9]|[1-9]| [1-9])],
  matches it at the start of the string (alternatives in the order
  written, with backtracking), raises [ValueError] when there is no
  match or when text remains after the match, and then builds the date,
  which raises [ValueError] when the day does not exist. *)

Module Strptime.

Definition is_digit (c : ascii) : bool :=
  let n := N_of_ascii c in ((48 <=? n) && (n <=? 57))%N.

Definition in_range (lo hi : ascii) (c : ascii) : bool :=
  let n := N_of_ascii c in ((N_of_ascii lo <=? n) && (n <=? N_of_ascii hi))%N.

Definition val (c : ascii) : Z := Z.of_N (N_of_ascii c) - 48.

(** A two-character alternative [[l1-h1][l2-h2]]: the value it reads and
    the text left, or nothing. *)
Definition two (l1 h1 l2 h2 : ascii) (s : string) : list (Z * string) :=
  match s with
  | String a (String b r) =>
      if in_range l1 h1 a && in_range l2 h2 b
      then [(10 * val a + val b, r)] else []
  | _ => []
  end.

(** A one-character alternative [[lo-hi]]. *)
Definition one (lo hi : ascii) (s : string) : list (Z * string) :=
  match s with
  | String a r => if in_range lo hi a then [(val a, r)] else []
  | _ => []
  end.

(** [" [1-9]"]: a space, then one digit. *)
Definition spaced (s : string) : list (Z * string) :=
  match s with
  | String " " r => one "1" "9" r
  | _ => []
  end.

(** [\d\d\d\d] *)
Definition group_Y (s : string) : list (Z * string) :=
  match s with
  | String a (String b (String c (String d r))) =>
      if is_digit a && is_digit b && is_digit c && is_digit d
      then [(1000 * val a + 100 * val b + 10 * val c + val d, r)] else []
  | _ => []
  end.

(** [1[0-2]|0[1-9]|[1-9]], every alternative that matches, in order. *)
Definition group_m (s : string) : list (Z * string) :=
  (two "1" "1" "0" "2" s ++ two "0" "0" "1" "9" s ++ one "1" "9" s)%list.

(** [3[01]|[12]\d|0[1-9]|[1-9]| [1-9]] *)
Definition group_d (s : string) : list (Z * string) :=
  two "3" "3" "0" "1" s ++ two "1" "2" "0" "9" s ++ two "0" "0" "1" "9" s
  ++ one "1" "9" s ++ spaced s.

Definition dash (s : string) : list string :=
  match s with
  | String "-" r => [r]
  | _ => []
  end.

(** All matches of the whole expression at the start of [s], in the
    order the backtracking matcher finds them; [re.match] returns the
    first. *)
Definition matches (s : string) : list (Z * Z * Z * string) :=
  '(y, r1) ← group_Y s;
  r2 ← dash r1;
  '(m, r3) ← group_m r2;
  r4 ← dash r3;
  '(d, r5) ← group_d r4;
  [(y, m, d, r5)].

(** [None] stands for [ValueError]. *)
Definition strptime (s : string) : option Date.date :=
  match matches s with
  | (y, m, d, rest) :: _ =>
      match rest with
      | EmptyString =>
          let dt := Date.mk y m d in
          if Date.valid dt then Some dt else None
      | _ => None
      end
  | [] => None
  end.

End Strptime.

(** ** BSON object identifiers

    An [ObjectId] is twelve bytes; it is kept here as the 24 lower-case
    hexadecimal digits that [str] prints.  [ObjectId(s)] accepts a string
    of 24 hexadecimal digits in either case and raises [InvalidId]
    otherwise.  (A 24-character string with white space between the digit
    pairs also passes [bytes.fromhex]; it gives fewer than twelve bytes,
    which is the key of no stored document, and is left out here.) *)

Module Bson.

Record ObjectId := Oid { binary : string }.

#[global] Instance ObjectId_eq_dec : EqDecision ObjectId.
Proof. solve_decision. Defined.

Definition is_hex (c : ascii) : bool :=
  Strptime.in_range "0" "9" c || Strptime.in_range "a" "f" c
  || Strptime.in_range "A" "F" c.

Definition lower (c : ascii) : ascii :=
  if Strptime.in_range "A" "F" c
  then ascii_of_N (N_of_ascii c + 32) else c.

Fixpoint all_hex (s : string) : bool :=
  match s with
  | EmptyString => true
  | String c r => is_hex c && all_hex r
  end.

Fixpoint lower_all (s : string) : string :=
  match s with
  | EmptyString => EmptyString
  | String c r => String (lower c) (lower_all r)
  end.

(** [None] stands for [InvalidId]. *)
Definition parse (s : string) : option ObjectId :=
  if (String.length s =? 24)%nat && all_hex s
  then Some (Oid (lower_all s)) else None.

Definition str (o : ObjectId) : string := binary o.

Definition is_lower_hex (c : ascii) : bool :=
  Strptime.in_range "0" "9" c || Strptime.in_range "a" "f" c.

Fixpoint all_lower_hex (s : string) : bool :=
  match s with
  | EmptyString => true
  | String c r => is_lower_hex c && all_lower_hex r
  end.

(** The identifiers that exist: twelve bytes. *)
Definition well_formed (o : ObjectId) : bool :=
  (String.length (binary o) =? 24)%nat && all_lower_hex (binary o).

End Bson.

(** ** Python values, dictionaries and exceptions *)

Inductive Value :=
| VNone
| VBool (b : bool)
| VStr (s : string)
| VOid (o : Bson.ObjectId).

#[global] Instance Value_eq_dec : EqDecision Value.
Proof. solve_decision. Defined.

(** A document: a dictionary from field names to values. *)
Abbreviation Doc := (gmap string Value).

(** Truth value of an object, as tested by [if x:] and [not x]. *)
Definition truthy (v : Value) : bool :=
  match v with
  | VNone => false
  | VBool b => b
  | VStr s => negb (String.eqb s "")
  | VOid _ => true
  end.

(** [str(v)] *)
Definition py_str (v : Value) : string :=
  match v with
  | VNone => "None"
  | VBool true => "True"
  | VBool false => "False"
  | VStr s => s
  | VOid o => Bson.str o
  end.

(** [d.get(k)] and [d.get(k, default)] *)
Definition get (d : Doc) (k : string) : Value := default VNone (d !! k).
Definition get_or (d : Doc) (k : string) (dflt : Value) : Value :=
  default dflt (d !! k).

Inductive Exn :=
| HTTPException (status_code : Z) (detail : string)
| ValueError
| TypeError
| KeyError
| DuplicateKeyError.

#[global] Instance Exn_eq_dec : EqDecision Exn.
Proof. solve_decision. Defined.

(** The result of running Python code: a value, or a raised exception. *)
Inductive Outcome (A : Type) :=
| Return (a : A)
| Raise (e : Exn).
Arguments Return {A} a.
Arguments Raise {A} e.

#[global] Instance Outcome_ret : MRet Outcome := @Return.
#[global] Instance Outcome_bind : MBind Outcome := fun A B f c =>
  match c with
  | Return a => f a
  | Raise e => Raise e
  end.

(** [try: body  except ValueError: handler] *)
Definition try_except_ValueError {A} (body handler : Outcome A) : Outcome A :=
  match body with
  | Raise ValueError => handler
  | other => other
  end.

(** [datetime.strptime(v, "%Y-%m-%d").date()] on an arbitrary object: a
    [TypeError] when [v] is not a string. *)
Definition strptime (v : Value) : Outcome Date.date :=
  match v with
  | VStr s =>
      match Strptime.strptime s with
      | Some d => Return d
      | None => Raise ValueError
      end
  | _ => Raise TypeError
  end.

(** [a > today] for a field value [a] and the string [today]: strings are
    compared code point by code point, anything else raises. *)
Definition str_gt (a : Value) (today : string) : Outcome bool :=
  match a with
  | VStr s => Return (String.ltb today s)
  | _ => Raise TypeError
  end.

(** [d[k]] *)
Definition subscript (d : Doc) (k : string) : Outcome Value :=
  match d !! k with
  | Some v => Return v
  | None => Raise KeyError
  end.

(** Truth value of the result of [find_one]: [None] and the empty
    dictionary are false. *)
Definition truthy_doc (o : option Doc) : bool :=
  match o with
  | None => false
  | Some d => negb (bool_decide (d = ∅))
  end.

(** ** The pymongo collection

    A collection is the list of its documents in natural order.  Only the
    operations and the query operators the handlers use are modelled. *)

Module Mongo.

(** The condition a query puts on one field: equality with a value, or
    [{"$gte": s}] for a string [s]. *)
Inductive Cond :=
| Equals (v : Value)
| Gte (s : string).

(** Equality with [None] also matches a missing field; [$gte] with a
    string operand matches string fields only, in binary order. *)
Definition cond_holds (c : Cond) (field : option Value) : bool :=
  match c, field with
  | Equals v, Some w => bool_decide (w = v)
  | Equals v, None => bool_decide (v = VNone)
  | Gte t, Some (VStr s) => String.leb t s
  | Gte _, _ => false
  end.

Definition query_matches (q : gmap string Cond) (d : Doc) : bool :=
  bool_decide (map_Forall (fun k c => cond_holds c (d !! k) = true) q).

(** [collection.find(query)] *)
Definition find (q : gmap string Cond) (c : list Doc) : list Doc :=
  List.filter (query_matches q) c.

Definition has_id (id : Value) (d : Doc) : bool :=
  bool_decide (d !! "_id" = Some id).

(** [collection.find_one({"_id": id})] *)
Definition find_one (id : Value) (c : list Doc) : option Doc :=
  List.find (has_id id) c.

(** [collection.insert_one(doc)]: the driver adds an ["_id"] (the fresh
    [new_id]) to a document that has none, the server refuses a key that
    is already stored.  The result is [inserted_id] with the document as
    the driver left it. *)
Definition insert_one (new_id : Bson.ObjectId) (doc : Doc) (c : list Doc)
  : Outcome (Value * Doc) * list Doc :=
  let id := default (VOid new_id) (doc !! "_id") in
  let doc := <["_id" := id]> doc in
  match find_one id c with
  | Some _ => (Raise DuplicateKeyError, c)
  | None => (Return (id, doc), (c ++ [doc])%list)
  end.

Record UpdateResult := { matched_count : Z; modified_count : Z }.

(** [collection.update_one({"_id": id}, {"$set": fields})]: the first
    document with this key gets every field of [fields]; an empty
    [fields] changes nothing (servers from version 5.0 on accept it). *)
Fixpoint update_one (id : Value) (fields : Doc) (c : list Doc)
  : UpdateResult * list Doc :=
  match c with
  | [] => ({| matched_count := 0; modified_count := 0 |}, [])
  | d :: r =>
      if has_id id d then
        let d' := fields ∪ d in
        ({| matched_count := 1;
            modified_count := if bool_decide (d' = d) then 0 else 1 |},
         d' :: r)
      else
        let '(res, r') := update_one id fields r in (res, d :: r')
  end.

Record DeleteResult := { deleted_count : Z }.

(** [collection.delete_one({"_id": id})] *)
Fixpoint delete_one (id : Value) (c : list Doc) : DeleteResult * list Doc :=
  match c with
  | [] => ({| deleted_count := 0 |}, [])
  | d :: r =>
      if has_id id d then ({| deleted_count := 1 |}, r)
      else let '(res, r') := delete_one id r in (res, d :: r')
  end.

End Mongo.

(** ** Handlers run against [announcements_collection]

    A handler is a function of the collection that gives its outcome and
    the collection it leaves; an exception leaves the collection as it was
    when it was raised. *)

Definition M (A : Type) : Type := list Doc -> Outcome A * list Doc.

#[global] Instance M_ret : MRet M := fun A a c => (Return a, c).
#[global] Instance M_bind : MBind M := fun A B f m c =>
  match m c with
  | (Return a, c') => f a c'
  | (Raise e, c') => (Raise e, c')
  end.

Definition raise {A} (e : Exn) : M A := fun c => (Raise e, c).
Definition lift {A} (o : Outcome A) : M A := fun c => (o, c).

Definition find (q : gmap string Mongo.Cond) : M (list Doc) :=
  fun c => (Return (Mongo.find q c), c).
Definition find_one (id : Value) : M (option Doc) :=
  fun c => (Return (Mongo.find_one id c), c).
Definition insert_one (new_id : Bson.ObjectId) (doc : Doc) : M (Value * Doc) :=
  Mongo.insert_one new_id doc.
Definition update_one (id : Value) (fields : Doc) : M Mongo.UpdateResult :=
  fun c => let '(res, c') := Mongo.update_one id fields c in (Return res, c').
Definition delete_one (id : Value) : M Mongo.DeleteResult :=
  fun c => let '(res, c') := Mongo.delete_one id c in (Return res, c').

(** ** Request models *)

Module AnnouncementCreate.
Record t := mk {
  message : string;
  start_date : option string;
  expiration_date : string;
  is_active : bool
}.
End AnnouncementCreate.

Module AnnouncementUpdate.
Record t := mk {
  message : option string;
  start_date : option string;
  expiration_date : option string;
  is_active : option bool
}.
End AnnouncementUpdate.

(** An [Optional[str]] field as a Python value. *)
Definition opt_str (o : option string) : Value :=
  match o with
  | Some s => VStr s
  | None => VNone
  end.

(** [announcement.dict()] *)
Definition dict (a : AnnouncementCreate.t) : Doc :=
  <["message" := VStr (AnnouncementCreate.message a)]>
  (<["start_date" := opt_str (AnnouncementCreate.start_date a)]>
  (<["expiration_date" := VStr (AnnouncementCreate.expiration_date a)]>
  (<["is_active" := VBool (AnnouncementCreate.is_active a)]> ∅))).

(** [if value is not None: update_doc[key] = value] *)
Definition set_if {A} (key : string) (inj : A -> Value) (value : option A)
  (update_doc : Doc) : Doc :=
  match value with
  | Some v => <[key := inj v]> update_doc
  | None => update_doc
  end.

(** ** The four endpoints

    [teachers_collection] is only read; [today] is what [date.today()]
    returns during the request. *)

Section Endpoints.

Variable teachers_collection : list Doc.
Variable today : Date.date.

Definition unauthorized : Exn :=
  HTTPException 401 "Invalid teacher credentials".
Definition past_expiration : Exn :=
  HTTPException 400 "Expiration date cannot be in the past".
Definition start_after_expiration : Exn :=
  HTTPException 400 "Start date cannot be after expiration date".
Definition invalid_date_format : Exn :=
  HTTPException 400 "Invalid date format. Use YYYY-MM-DD".
Definition invalid_id : Exn :=
  HTTPException 400 "Invalid announcement ID".
Definition not_found : Exn :=
  HTTPException 404 "Announcement not found".
Definition create_failed : Exn :=
  HTTPException 500 "Failed to create announcement".
Definition update_failed : Exn :=
  HTTPException 500 "Failed to update announcement".

(** [announcement["id"] = str(announcement["_id"]); del announcement["_id"]] *)
Definition expose_id (announcement : Doc) : Outcome Doc :=
  id ← subscript announcement "_id";
  mret (delete "_id" (<["id" := VStr (py_str id)]> announcement)).

(** The loop of [get_announcements] over the cursor, with the list built
    so far. *)
Fixpoint collect (active_only : bool) (today_s : string)
  (cursor : list Doc) (announcements : list Doc) : Outcome (list Doc) :=
  match cursor with
  | [] => Return announcements
  | announcement :: cursor =>
      skip ← (if active_only && truthy (get announcement "start_date")
              then start ← subscript announcement "start_date";
                   str_gt start today_s
              else Return false);
      if (skip : bool) then collect active_only today_s cursor announcements
      else
        announcement ← expose_id announcement;
        collect active_only today_s cursor (announcements ++ [announcement])%list
  end.

Definition get_announcements (active_only : bool) : M (list Doc) :=
  let today_s := Date.isoformat today in
  let query : gmap string Mongo.Cond := ∅ in
  let query :=
    if active_only
    then <["expiration_date" := Mongo.Gte today_s]>
         (<["is_active" := Mongo.Equals (VBool true)]> query)
    else query in
  cursor ← find query;
  lift (collect active_only today_s cursor []).

(** The date checks of [create_announcement] (the [try] block). *)
Definition validate_create (announcement : AnnouncementCreate.t)
  : Outcome unit :=
  try_except_ValueError
    (exp_date ← strptime (VStr (AnnouncementCreate.expiration_date announcement));
     if Date.ltb exp_date today then Raise past_expiration
     else if truthy (opt_str (AnnouncementCreate.start_date announcement))
     then
       start_date ← strptime (opt_str (AnnouncementCreate.start_date announcement));
       if Date.ltb exp_date start_date then Raise start_after_expiration
       else Return ()
     else Return ())
    (Raise invalid_date_format).

(** [new_id] is the identifier the driver generates for the insert. *)
Definition create_announcement (new_id : Bson.ObjectId)
  (announcement : AnnouncementCreate.t) (teacher_username : string) : M Doc :=
  let teacher := Mongo.find_one (VStr teacher_username) teachers_collection in
  if negb (truthy_doc teacher) then raise unauthorized
  else
    _ ← lift (validate_create announcement);
    let announcement_doc := dict announcement in
    '(inserted_id, announcement_doc) ← insert_one new_id announcement_doc;
    if negb (truthy inserted_id) then raise create_failed
    else
      let announcement_doc :=
        <["id" := VStr (py_str inserted_id)]> announcement_doc in
      let announcement_doc := delete "_id" announcement_doc in
      mret announcement_doc.

(** The fields an update request sets. *)
Definition build_update_doc (announcement : AnnouncementUpdate.t) : Doc :=
  let update_doc : Doc := ∅ in
  let update_doc :=
    set_if "message" VStr (AnnouncementUpdate.message announcement) update_doc in
  let update_doc :=
    set_if "start_date" VStr (AnnouncementUpdate.start_date announcement) update_doc in
  let update_doc :=
    set_if "expiration_date" VStr
      (AnnouncementUpdate.expiration_date announcement) update_doc in
  let update_doc :=
    set_if "is_active" VBool (AnnouncementUpdate.is_active announcement) update_doc in
  update_doc.

(** The date checks of [update_announcement] (under [if update_doc:]). *)
Definition validate_update (update_doc existing : Doc) : Outcome unit :=
  if bool_decide (update_doc = ∅) then Return ()
  else
    let exp_date :=
      get_or update_doc "expiration_date" (get existing "expiration_date") in
    let start_date :=
      get_or update_doc "start_date" (get existing "start_date") in
    try_except_ValueError
      (exp_date_obj ← strptime exp_date;
       if truthy start_date
       then
         start_date_obj ← strptime start_date;
         if Date.ltb exp_date_obj start_date_obj
         then Raise start_after_expiration
         else Return ()
       else Return ())
      (Raise invalid_date_format).

Definition update_announcement (announcement_id : string)
  (announcement : AnnouncementUpdate.t) (teacher_username : string) : M Doc :=
  let teacher := Mongo.find_one (VStr teacher_username) teachers_collection in
  if negb (truthy_doc teacher) then raise unauthorized
  else
    match Bson.parse announcement_id with
    | None => raise invalid_id
    | Some obj_id =>
        existing ← find_one (VOid obj_id);
        match existing with
        | None => raise not_found
        | Some existing_doc =>
            if negb (truthy_doc existing) then raise not_found
            else
              let update_doc := build_update_doc announcement in
              _ ← lift (validate_update update_doc existing_doc);
              result ← update_one (VOid obj_id) update_doc;
              if (Mongo.modified_count result =? 0)
                 && (Mongo.matched_count result =? 0)
              then raise update_failed
              else
                updated ← find_one (VOid obj_id);
                match updated with
                | None => raise TypeError
                | Some updated => lift (expose_id updated)
                end
        end
    end.

Definition deleted_message : Doc :=
  <["message" := VStr "Announcement deleted successfully"]> ∅.

Definition delete_announcement (announcement_id : string)
  (teacher_username : string) : M Doc :=
  let teacher := Mongo.find_one (VStr teacher_username) teachers_collection in
  if negb (truthy_doc teacher) then raise unauthorized
  else
    match Bson.parse announcement_id with
    | None => raise invalid_id
    | Some obj_id =>
        result ← delete_one (VOid obj_id);
        if Mongo.deleted_count result =? 0 then raise not_found
        else mret deleted_message
    end.

End Endpoints.

(** ** Notions used by the statements *)

(** The shape of a stored announcement: the fields of
    [announcement.dict()] with their types, which [$set] of an update
    request keeps, and the key the store assigned. *)
Definition announcement_doc (d : Doc) : bool :=
  match d !! "_id", d !! "message", d !! "start_date",
        d !! "expiration_date", d !! "is_active" with
  | Some (VOid _), Some (VStr _), Some (VStr _ | VNone),
    Some (VStr _), Some (VBool _) => true
  | _, _, _, _, _ => false
  end.

(** The keys of a collection, in order. *)
Definition ids (c : list Doc) : list (option Value) :=
  map (fun d : Doc => d !! "_id") c.

(** A collection of announcements: every document has the stored shape
    and no key occurs twice (the store's unique index on ["_id"]). *)
Definition store_ok (c : list Doc) : Prop :=
  Forall (fun d => announcement_doc d = true) c /\ NoDup (ids c).

(** The teacher directory knows the identity. *)
Definition known_teacher (teachers_collection : list Doc) (username : string)
  : bool :=
  truthy_doc (Mongo.find_one (VStr username) teachers_collection).

(** The public shape of a stored document: ["id"] holds the string form
    of the key, the key field is gone. *)
Definition public (d : Doc) : Doc :=
  delete "_id" (<["id" := VStr (py_str (get d "_id"))]> d).

(** Visibility as the specification words it, on the stored values: the
    announcement is active, does not expire before the reference date and
    has no start date or one that is not after the reference date.  Dates
    are the stored strings in their binary order. *)
Definition starts_by (today_s : string) (d : Doc) : bool :=
  match d !! "start_date" with
  | None | Some VNone => true
  | Some (VStr s) => String.leb s today_s
  | Some _ => false
  end.

Definition visible (today_s : string) (d : Doc) : bool :=
  bool_decide (d !! "is_active" = Some (VBool true))
  && match d !! "expiration_date" with
     | Some (VStr e) => String.leb today_s e
     | _ => false
     end
  && starts_by today_s d.

(** A string in ISO form: what [isoformat] prints for the date it is
    read as. *)
Definition is_iso (s : string) : bool :=
  match Strptime.strptime s with
  | Some d => String.eqb (Date.isoformat d) s
  | None => false
  end.

(** The dates of the document are in ISO form (a start date may be
    missing). *)
Definition iso_dates (d : Doc) : bool :=
  match d !! "expiration_date" with
  | Some (VStr e) => is_iso e
  | _ => false
  end
  && match d !! "start_date" with
     | None | Some VNone => true
     | Some (VStr s) => is_iso s
     | Some _ => false
     end.

(** Visibility on calendar dates: the stored strings are read as dates
    and compared with the reference date. *)
Definition calendar_visible (today : Date.date) (d : Doc) : bool :=
  bool_decide (d !! "is_active" = Some (VBool true))
  && match d !! "expiration_date" with
     | Some (VStr e) =>
         match Strptime.strptime e with
         | Some ed => Date.leb today ed
         | None => false
         end
     | _ => false
     end
  && match d !! "start_date" with
     | None | Some VNone => true
     | Some (VStr s) =>
         match Strptime.strptime s with
         | Some sd => Date.leb sd today
         | None => false
         end
     | Some _ => false
     end.

(** The outcome is a failure with this HTTP status. *)
Definition fails_with {A} (status : Z) (o : Outcome A) : bool :=
  match o with
  | Raise (HTTPException s _) => s =? status
  | _ => false
  end.

Definition succeeds {A} (o : Outcome A) : bool :=
  match o with
  | Return _ => true
  | Raise _ => false
  end.

(** The value a date field has after an update: the one the request
    supplies, else the stored one. *)
Definition effective (req : AnnouncementUpdate.t) (existing : Doc)
  (k : string) : Value :=
  get_or (build_update_doc req) k (get existing k).

(** The value of a field after [$set]: the supplied one, else the stored
    one. *)
Definition supplied_or_stored {A} (inj : A -> Value) (supplied : option A)
  (stored : option Value) : option Value :=
  match supplied with
  | Some v => Some (inj v)
  | None => stored
  end.

(** When creation rejects the dates, as the specification words it: the
    expiration date is not a well-formed date, or it is before the
    reference date, or a start date is supplied and is malformed or after
    the expiration date. *)
Definition stated_invalid_create (today : Date.date)
  (a : AnnouncementCreate.t) : bool :=
  match Strptime.strptime (AnnouncementCreate.expiration_date a) with
  | None => true
  | Some e =>
      Date.ltb e today
      || match AnnouncementCreate.start_date a with
         | None => false
         | Some s =>
             match Strptime.strptime s with
             | None => true
             | Some sd => Date.ltb e sd
             end
         end
  end.

(** The same rule with an empty start date counted as absent. *)
Definition invalid_create (today : Date.date)
  (a : AnnouncementCreate.t) : bool :=
  match Strptime.strptime (AnnouncementCreate.expiration_date a) with
  | None => true
  | Some e =>
      Date.ltb e today
      || match AnnouncementCreate.start_date a with
         | None => false
         | Some s =>
             if String.eqb s "" then false
             else match Strptime.strptime s with
                  | None => true
                  | Some sd => Date.ltb e sd
                  end
         end
  end.

(** ** Sample data *)

Module Sample.

Definition teachers : list Doc := [<["_id" := VStr "mrodriguez"]> ∅].

Definition today : Date.date := Date.mk 2025 6 10.

Definition oid1 : Bson.ObjectId := Bson.Oid "665f1c2ab3d4e5f601234567".
Definition oid2 : Bson.ObjectId := Bson.Oid "665f1c2ab3d4e5f601234568".

Definition exam_week : AnnouncementCreate.t :=
  AnnouncementCreate.mk "Exam week" (Some "2025-06-01") "2025-06-30" true.

Definition old_notice : AnnouncementCreate.t :=
  AnnouncementCreate.mk "Science fair" None "2024-03-15" true.

Definition stored1 : Doc := <["_id" := VOid oid1]> (dict exam_week).
Definition stored2 : Doc := <["_id" := VOid oid2]> (dict old_notice).

(** A collection with one current and one expired announcement. *)
Definition store : list Doc := [stored1; stored2].

Definition no_fields : AnnouncementUpdate.t :=
  AnnouncementUpdate.mk None None None None.

Definition deactivate : AnnouncementUpdate.t :=
  AnnouncementUpdate.mk None None None (Some false).

Definition assembly : AnnouncementCreate.t :=
  AnnouncementCreate.mk "Assembly on Friday" (Some "") "2025-06-30" true.

Definition oid3 : Bson.ObjectId := Bson.Oid "665f1c2ab3d4e5f601234569".

(** Replaces the start date by the empty string. *)
Definition clear_start : AnnouncementUpdate.t :=
  AnnouncementUpdate.mk None (Some "") None None.

(** Sets the expiration date to a day long before [today]. *)
Definition backdate : AnnouncementUpdate.t :=
  AnnouncementUpdate.mk None None (Some "2020-01-01") None.

End Sample.

(** ** Further notions *)

(** The date rule of a stored announcement: the expiration date is read
    by [strptime], and a start date that is not empty is read too and is
    not after it. *)
Definition dates_ok (d : Doc) : bool :=
  match strptime (get d "expiration_date") with
  | Return e =>
      if truthy (get d "start_date")
      then match strptime (get d "start_date") with
           | Return s => Date.leb s e
           | Raise _ => false
           end
      else true
  | Raise _ => false
  end.

(** The request supplies no field. *)
Definition no_fields (req : AnnouncementUpdate.t) : bool :=
  match req with
  | AnnouncementUpdate.mk None None None None => true
  | _ => false
  end.

(** The outcome is an exception that no handler turns into a response
    of its own: the server answers with status 500. *)
Definition internal_error {A} (o : Outcome A) : bool :=
  match o with
  | Return _ => false
  | Raise (HTTPException s _) => s =? 500
  | Raise _ => true
  end.

Module More.

(** A request whose dates are in ISO form and cover [Sample.today]. *)
Definition sports_day : AnnouncementCreate.t :=
  AnnouncementCreate.mk "Sports day" (Some "2025-06-10") "2025-06-10" true.

Definition sports_day_doc : Doc :=
  <["_id" := VOid Sample.oid3]> (dict sports_day).

(** Moves the start date behind the stored expiration date. *)
Definition late_start : AnnouncementUpdate.t :=
  AnnouncementUpdate.mk None (Some "2025-07-15") None None.

Definition reword : AnnouncementUpdate.t :=
  AnnouncementUpdate.mk (Some "Exam week moved") None None None.

End More.

(** * Properties *)

(** ** The date functions on concrete inputs *)

Example strptime_padded :
  Strptime.strptime "2025-06-10" = Some (Date.mk 2025 6 10).
Proof. reflexivity. Qed.

(** The leading zero of month and day is optional. *)
Example strptime_unpadded :
  Strptime.strptime "2025-6-1" = Some (Date.mk 2025 6 1).
Proof. reflexivity. Qed.

Example strptime_trailing_text : Strptime.strptime "2025-01-311" = None.
Proof. reflexivity. Qed.

Example strptime_no_such_day : Strptime.strptime "2025-02-30" = None.
Proof. reflexivity. Qed.

Example strptime_leap_day :
  Strptime.strptime "2024-02-29" = Some (Date.mk 2024 2 29).
Proof. reflexivity. Qed.

Example strptime_year_zero : Strptime.strptime "0000-01-01" = None.
Proof. reflexivity. Qed.

Example strptime_empty : Strptime.strptime "" = None.
Proof. reflexivity. Qed.

Example isoformat_pads :
  Date.isoformat (Date.mk 2025 6 1) = "2025-06-01".
Proof. reflexivity. Qed.

(** A date string without the leading zero is accepted by [strptime] but
    is not in ISO form; on such strings the order of the strings is not
    the order of the dates. *)
Example unpadded_string_order :
  is_iso "2025-6-15" = false
  /\ String.leb "2025-10-01" "2025-6-15" = true
  /\ Date.leb (Date.mk 2025 10 1) (Date.mk 2025 6 15) = false.
Proof. repeat split. Qed.

Example object_id_parse :
  Bson.parse "665F1C2AB3D4E5F601234567"
  = Some (Bson.Oid "665f1c2ab3d4e5f601234567")
  /\ Bson.parse "665f1c2a" = None
  /\ Bson.parse "665f1c2ab3d4e5f60123456z" = None.
Proof. repeat split. Qed.

(** ** The collection operations *)

Ltac run :=
  unfold mbind, M_bind, Outcome_bind, mret, M_ret, Outcome_ret,
    lift, raise, find_one, find, update_one, delete_one, insert_one in *;
  simpl in *.

Lemma has_id_true id (d : Doc) :
  Mongo.has_id id d = true <-> d !! "_id" = Some id.
Proof. unfold Mongo.has_id. apply bool_decide_eq_true. Qed.

Lemma has_id_false id (d : Doc) :
  Mongo.has_id id d = false <-> d !! "_id" <> Some id.
Proof. unfold Mongo.has_id. apply bool_decide_eq_false. Qed.

Lemma find_one_Some id c d :
  Mongo.find_one id c = Some d -> d ∈ c /\ d !! "_id" = Some id.
Proof.
  unfold Mongo.find_one. intros H. apply List.find_some in H.
  destruct H as [Hin Hid].
  split; [now apply list_elem_of_In | now apply has_id_true].
Qed.

Lemma find_one_None id c :
  Mongo.find_one id c = None <-> Some id ∉ ids c.
Proof.
  induction c as [|d c IH]; simpl.
  - split; [intros _; apply not_elem_of_nil | reflexivity].
  - rewrite not_elem_of_cons. destruct (Mongo.has_id id d) eqn:E.
    + apply has_id_true in E. split; [discriminate | intros [H _]; now destruct H].
    + apply has_id_false in E. rewrite IH. split; [intros H; split; [congruence | exact H] | tauto].
Qed.

Lemma find_one_truthy id c d :
  Mongo.find_one id c = Some d -> truthy_doc (Some d) = true.
Proof.
  intros H. apply find_one_Some in H as [_ H]. simpl.
  apply negb_true_iff, bool_decide_eq_false. intros ->.
  rewrite lookup_empty in H. discriminate.
Qed.

Lemma find_one_app_new id c (d : Doc) :
  Mongo.find_one id c = None -> d !! "_id" = Some id ->
  Mongo.find_one id (c ++ [d]) = Some d.
Proof.
  induction c as [|x c IH]; simpl; intros Hn Hd.
  - apply has_id_true in Hd. now rewrite Hd.
  - destruct (Mongo.has_id id x); [discriminate | now apply IH].
Qed.

(** [delete_one] on a key that is not stored. *)
Lemma delete_one_absent id c :
  Mongo.find_one id c = None ->
  Mongo.delete_one id c = ({| Mongo.deleted_count := 0 |}, c).
Proof.
  induction c as [|d c IH]; simpl; [reflexivity|].
  destruct (Mongo.has_id id d); [discriminate|].
  intros H. now rewrite (IH H).
Qed.

(** [delete_one] on a stored key removes a document with this key. *)
Lemma delete_one_present id c d :
  Mongo.find_one id c = Some d ->
  exists c', Mongo.delete_one id c = ({| Mongo.deleted_count := 1 |}, c')
             /\ (NoDup (ids c) -> Mongo.find_one id c' = None)
             /\ (forall x, x ∈ c' -> x ∈ c).
Proof.
  induction c as [|x c IH]; simpl; [discriminate|].
  destruct (Mongo.has_id id x) eqn:E.
  - intros _. exists c. split; [reflexivity|]. split.
    + intros Hnd. apply NoDup_cons_1_1 in Hnd as Hx.
      apply find_one_None. apply has_id_true in E. now rewrite <- E.
    + intros y Hy. apply elem_of_cons. now right.
  - intros H. destruct (IH H) as (c' & Hd & Hn & Hsub).
    exists (x :: c'). rewrite Hd. split; [reflexivity|]. split.
    + intros Hnd. simpl. rewrite E. apply Hn.
      now apply NoDup_cons_1_2 in Hnd.
    + intros y Hy. apply elem_of_cons in Hy as [->|Hy]; apply elem_of_cons;
        [now left | right; now apply Hsub].
Qed.

Lemma update_one_absent id fields c :
  Mongo.find_one id c = None ->
  Mongo.update_one id fields c
  = ({| Mongo.matched_count := 0; Mongo.modified_count := 0 |}, c).
Proof.
  induction c as [|d c IH]; simpl; [reflexivity|].
  destruct (Mongo.has_id id d); [discriminate|].
  intros H. now rewrite (IH H).
Qed.

(** [update_one] on a stored key: one document matched, and it is the
    only one that changes; it gets the fields of [$set] over its own. *)
Lemma update_one_present id (fields : Doc) c d :
  Mongo.find_one id c = Some d -> fields !! "_id" = None ->
  exists n c',
    Mongo.update_one id fields c
    = ({| Mongo.matched_count := 1; Mongo.modified_count := n |}, c')
    /\ Mongo.find_one id c' = Some (fields ∪ d)
    /\ Forall2 (fun x y : Doc => y = x \/ (x = d /\ y = fields ∪ d)) c c'
    /\ ids c' = ids c.
Proof.
  intros Hf Hk. induction c as [|x c IH]; simpl in *; [discriminate|].
  destruct (Mongo.has_id id x) eqn:E.
  - injection Hf as ->. eexists _, _. split; [reflexivity|].
    assert (Hid : (fields ∪ d) !! "_id" = d !! "_id")
      by (now apply lookup_union_r).
    split; [|split].
    + simpl. apply has_id_true in E.
      assert (E' : Mongo.has_id id (fields ∪ d) = true)
        by (apply has_id_true; congruence).
      now rewrite E'.
    + constructor; [now right|]. apply Forall2_same_length_lookup_2; [reflexivity|].
      intros i a b Ha Hb. left. congruence.
    + simpl. now rewrite Hid.
  - destruct (IH Hf) as (n & c' & Hu & Hfind & Hall & Hids).
    exists n, (x :: c'). rewrite Hu. split; [reflexivity|]. split; [|split].
    + simpl. now rewrite E.
    + constructor; [now left | exact Hall].
    + simpl. now rewrite Hids.
Qed.

Lemma update_one_empty id c : (Mongo.update_one id ∅ c).2 = c.
Proof.
  induction c as [|d c IH]; simpl; [reflexivity|].
  destruct (Mongo.has_id id d); simpl.
  - now rewrite (left_id_L ∅ (∪) d).
  - destruct (Mongo.update_one id ∅ c) as [res c']. simpl in *. now rewrite IH.
Qed.

(** The fields an update request sets are exactly the ones it supplies. *)
Lemma build_update_doc_lookup req k :
  build_update_doc req !! k =
  if decide (k = "is_active") then VBool <$> AnnouncementUpdate.is_active req
  else if decide (k = "expiration_date")
       then VStr <$> AnnouncementUpdate.expiration_date req
  else if decide (k = "start_date")
       then VStr <$> AnnouncementUpdate.start_date req
  else if decide (k = "message") then VStr <$> AnnouncementUpdate.message req
  else None.
Proof.
  destruct req as [m s e a]. unfold build_update_doc, set_if. simpl.
  repeat case_decide; subst;
    destruct m, s, e, a; simpl;
    repeat (rewrite lookup_insert_ne by congruence);
    rewrite ?lookup_insert_eq, ?lookup_empty; reflexivity.
Qed.

Lemma build_update_doc_no_id req : build_update_doc req !! "_id" = None.
Proof. rewrite build_update_doc_lookup. reflexivity. Qed.

Lemma build_update_doc_empty :
  build_update_doc (AnnouncementUpdate.mk None None None None) = ∅.
Proof. reflexivity. Qed.

(** ** Authentication *)

(** C6: when the teacher identity is not in the teacher directory, create,
    update and delete all fail with status 401, whatever the announcement
    collection holds, and leave the collection as it was. *)
Theorem unknown_teacher_unauthorized teachers username (c : list Doc)
  (Hunknown : known_teacher teachers username = false) :
  (forall today new_id announcement,
      create_announcement teachers today new_id announcement username c
      = (Raise unauthorized, c))
  /\ (forall id announcement,
         update_announcement teachers id announcement username c
         = (Raise unauthorized, c))
  /\ (forall id,
         delete_announcement teachers id username c = (Raise unauthorized, c)).
Proof.
  unfold known_teacher in Hunknown.
  repeat split; intros;
    unfold create_announcement, update_announcement, delete_announcement;
    rewrite Hunknown; reflexivity.
Qed.

Lemma unknown_teacher_unauthorized_witness :
  known_teacher Sample.teachers "intruder" = false
  /\ delete_announcement Sample.teachers "665f1c2ab3d4e5f601234567" "intruder"
       Sample.store
     = (Raise unauthorized, Sample.store).
Proof.
  split; [reflexivity|].
  apply (unknown_teacher_unauthorized Sample.teachers "intruder" Sample.store).
  reflexivity.
Defined.

(** ** Update *)

(** C5: an update that supplies no field succeeds for a known teacher and
    an existing record, whatever dates the record holds (none is parsed);
    the collection is left as it was and the record is returned in its
    public shape. *)
Theorem update_without_fields_is_noop teachers id username (c : list Doc) o d
  (Hteacher : known_teacher teachers username = true)
  (Hid : Bson.parse id = Some o)
  (Hexisting : Mongo.find_one (VOid o) c = Some d) :
  update_announcement teachers id (AnnouncementUpdate.mk None None None None)
    username c
  = (Return (public d), c).
Proof.
  unfold known_teacher in Hteacher. unfold update_announcement.
  rewrite Hteacher, Hid. run. rewrite Hexisting.
  rewrite (find_one_truthy _ _ _ Hexisting). simpl.
  rewrite build_update_doc_empty. unfold validate_update. simpl.
  pose proof (update_one_empty (VOid o) c) as Hsame.
  destruct (update_one_present (VOid o) ∅ c d Hexisting (lookup_empty _))
    as (n & c' & Hu & _ & _ & _).
  rewrite Hu in *. simpl in Hsame. subst c'. simpl.
  rewrite bool_decide_eq_true_2 by reflexivity.
  rewrite andb_false_r, Hexisting. unfold expose_id, subscript, public, get.
  apply find_one_Some in Hexisting as [_ ->]. reflexivity.
Qed.

Lemma update_without_fields_is_noop_witness :
  update_announcement Sample.teachers "665F1C2AB3D4E5F601234568"
    Sample.no_fields "mrodriguez" Sample.store
  = (Return (public (<["_id" := VOid Sample.oid2]> (dict Sample.old_notice))),
     Sample.store).
Proof.
  apply (update_without_fields_is_noop Sample.teachers _ _ _ Sample.oid2);
    reflexivity.
Defined.

(** What [update_announcement] does once the teacher is known, the
    identifier parses and the record exists: the date checks decide, and
    when they pass the fields of the request are set and the stored
    record is returned in its public shape. *)
Lemma update_announcement_existing teachers id req username (c : list Doc) o d
  (Hteacher : known_teacher teachers username = true)
  (Hid : Bson.parse id = Some o)
  (Hexisting : Mongo.find_one (VOid o) c = Some d) :
  update_announcement teachers id req username c =
  match validate_update (build_update_doc req) d with
  | Return _ =>
      (Return (public (build_update_doc req ∪ d)),
       (Mongo.update_one (VOid o) (build_update_doc req) c).2)
  | Raise e => (Raise e, c)
  end.
Proof.
  unfold known_teacher in Hteacher. unfold update_announcement.
  rewrite Hteacher, Hid. run. rewrite Hexisting.
  rewrite (find_one_truthy _ _ _ Hexisting). simpl.
  destruct (validate_update (build_update_doc req) d) as [[]|e]; [|reflexivity].
  destruct (update_one_present (VOid o) _ c d Hexisting
              (build_update_doc_no_id req)) as (n & c' & Hu & Hfind & _ & _).
  rewrite Hu. simpl. rewrite andb_false_r, Hfind.
  unfold expose_id, subscript, public, get.
  apply find_one_Some in Hfind as [_ ->]. reflexivity.
Qed.

(** A successful update went through every step. *)
Lemma update_announcement_success teachers id req username (c c' : list Doc) p :
  update_announcement teachers id req username c = (Return p, c') ->
  exists o d,
    Bson.parse id = Some o
    /\ Mongo.find_one (VOid o) c = Some d
    /\ validate_update (build_update_doc req) d = Return ()
    /\ p = public (build_update_doc req ∪ d)
    /\ c' = (Mongo.update_one (VOid o) (build_update_doc req) c).2.
Proof.
  intros H.
  destruct (known_teacher teachers username) eqn:Ht.
  2:{ unfold update_announcement, known_teacher in *. rewrite Ht in H.
      discriminate. }
  destruct (Bson.parse id) as [o|] eqn:Hid.
  2:{ unfold update_announcement, known_teacher in *. rewrite Ht, Hid in H.
      discriminate. }
  destruct (Mongo.find_one (VOid o) c) as [d|] eqn:Hd.
  2:{ unfold update_announcement, known_teacher in *. rewrite Ht, Hid in H.
      run. rewrite Hd in H. discriminate. }
  rewrite (update_announcement_existing _ _ _ _ _ o d Ht Hid Hd) in H.
  destruct (validate_update (build_update_doc req) d) as [[]|e] eqn:Hv;
    [|discriminate].
  injection H as <- <-. exists o, d. repeat split; assumption.
Qed.

(** The date checks of an update pass when the effective expiration date
    parses and the effective start date is empty or parses to a date that
    is not after it. *)
Lemma validate_update_passes req (d : Doc) e
  (Hexp : strptime (effective req d "expiration_date") = Return e)
  (Hstart : truthy (effective req d "start_date") = false
            \/ exists s, strptime (effective req d "start_date") = Return s
                         /\ Date.leb s e = true) :
  validate_update (build_update_doc req) d = Return ().
Proof.
  unfold validate_update, effective in *. case_bool_decide; [reflexivity|].
  rewrite Hexp. simpl. destruct Hstart as [Hs | (s & Hs & Hle)].
  - now rewrite Hs.
  - rewrite Hs. simpl. unfold Date.leb in Hle. apply negb_true_iff in Hle.
    rewrite Hle. now destruct (truthy _).
Qed.

(** C4: for a known teacher and an existing record, an update whose
    effective expiration date is well formed and whose effective start
    date is empty or a well-formed date not after it succeeds and stores
    the effective values.  Nothing is assumed about the current date: the
    handler never calls [date.today()], so this holds on every day, also
    on those after the effective expiration date. *)
Theorem update_accepts_past_expiration teachers id req username
  (c : list Doc) o d e
  (Hteacher : known_teacher teachers username = true)
  (Hid : Bson.parse id = Some o)
  (Hexisting : Mongo.find_one (VOid o) c = Some d)
  (Hexp : strptime (effective req d "expiration_date") = Return e)
  (Hstart : truthy (effective req d "start_date") = false
            \/ exists s, strptime (effective req d "start_date") = Return s
                         /\ Date.leb s e = true) :
  exists p c',
    update_announcement teachers id req username c = (Return p, c')
    /\ Mongo.find_one (VOid o) c' = Some (build_update_doc req ∪ d).
Proof.
  rewrite (update_announcement_existing _ _ _ _ _ o d Hteacher Hid Hexisting).
  rewrite (validate_update_passes req d e Hexp Hstart).
  destruct (update_one_present (VOid o) _ c d Hexisting
              (build_update_doc_no_id req)) as (n & c' & Hu & Hfind & _ & _).
  eexists _, _. split; [reflexivity|]. now rewrite Hu.
Qed.

Lemma update_accepts_past_expiration_witness :
  Date.ltb (Date.mk 2020 1 1) Sample.today = true
  /\ exists p c',
       update_announcement Sample.teachers "665f1c2ab3d4e5f601234568"
         Sample.backdate "mrodriguez" Sample.store = (Return p, c')
       /\ Mongo.find_one (VOid Sample.oid2) c'
          = Some (build_update_doc Sample.backdate
                  ∪ <["_id" := VOid Sample.oid2]> (dict Sample.old_notice)).
Proof.
  split; [reflexivity|].
  apply (update_accepts_past_expiration Sample.teachers _ Sample.backdate _
           Sample.store Sample.oid2 _ (Date.mk 2020 1 1));
    [reflexivity .. | left; reflexivity].
Defined.

(** ** ISO dates: the string order is the calendar order *)

Lemma digit_code n : N_of_ascii (Date.digit n) = (48 + Z.to_N (n mod 10))%N.
Proof.
  unfold Date.digit. apply N_ascii_embedding.
  pose proof (Z.mod_pos_bound n 10). lia.
Qed.

Lemma digit_compare x y :
  Ascii.compare (Date.digit x) (Date.digit y) = (x mod 10 ?= y mod 10).
Proof.
  unfold Ascii.compare. rewrite !digit_code, <- N2Z.inj_compare, !N2Z.inj_add.
  pose proof (Z.mod_pos_bound x 10). pose proof (Z.mod_pos_bound y 10).
  rewrite !Z2N.id by lia. apply Z.add_compare_mono_l.
Qed.

(** Comparing two numbers digit by digit, most significant first. *)
Lemma compare_by_digit a b c d :
  0 <= b < 10 -> 0 <= d < 10 ->
  (10 * a + b ?= 10 * c + d)
  = match a ?= c with
    | Eq => b ?= d
    | r => r
    end.
Proof.
  intros Hb Hd. destruct (Z.compare_spec a c) as [-> | Hlt | Hgt].
  - apply Z.add_compare_mono_l.
  - apply Z.compare_lt_iff. lia.
  - apply Z.compare_gt_iff. lia.
Qed.

Lemma pad2_compare x y k1 k2 :
  0 <= x < 100 -> 0 <= y < 100 ->
  String.compare (Date.pad2 x k1) (Date.pad2 y k2)
  = match x ?= y with
    | Eq => String.compare k1 k2
    | r => r
    end.
Proof.
  intros Hx Hy. unfold Date.pad2. cbn [String.compare].
  rewrite !digit_compare.
  replace (x ?= y) with (10 * (x / 10) + x mod 10 ?= 10 * (y / 10) + y mod 10)
    by (f_equal; Z.div_mod_to_equations; lia).
  rewrite compare_by_digit by (apply Z.mod_pos_bound; lia).
  rewrite !(Z.mod_small (_ / 10) 10) by (Z.div_mod_to_equations; lia).
  now destruct (x / 10 ?= y / 10), (x mod 10 ?= y mod 10).
Qed.

Lemma pad4_compare x y k1 k2 :
  0 <= x < 10000 -> 0 <= y < 10000 ->
  String.compare (Date.pad4 x k1) (Date.pad4 y k2)
  = match x ?= y with
    | Eq => String.compare k1 k2
    | r => r
    end.
Proof.
  intros Hx Hy. unfold Date.pad4, Date.pad2. cbn [String.compare].
  rewrite !digit_compare.
  replace (x ?= y)
    with (10 * (10 * (10 * (x / 1000) + (x / 100) mod 10) + (x / 10) mod 10)
          + x mod 10
          ?= 10 * (10 * (10 * (y / 1000) + (y / 100) mod 10) + (y / 10) mod 10)
             + y mod 10)
    by (f_equal; Z.div_mod_to_equations; lia).
  rewrite !compare_by_digit by (apply Z.mod_pos_bound; lia).
  rewrite !(Z.mod_small (_ / 1000) 10) by (Z.div_mod_to_equations; lia).
  now destruct (x / 1000 ?= y / 1000), ((x / 100) mod 10 ?= (y / 100) mod 10),
    ((x / 10) mod 10 ?= (y / 10) mod 10), (x mod 10 ?= y mod 10).
Qed.

Lemma valid_bounds d :
  Date.valid d = true ->
  1 <= Date.year d <= 9999 /\ 1 <= Date.month d <= 12 /\ 1 <= Date.day d <= 31.
Proof.
  unfold Date.valid, Date.days_in_month. intros H.
  repeat (apply andb_true_iff in H as [H ?]).
  repeat match goal with
         | H : (_ <=? _) = true |- _ => apply Z.leb_le in H
         end.
  repeat split; try lia.
  destruct (Date.month d =? 2); [destruct (Date.is_leap _); lia|].
  destruct (_ || _); lia.
Qed.

(** On ISO strings of dates the binary order of the strings is the order
    of the dates. *)
Lemma isoformat_compare a b :
  Date.valid a = true -> Date.valid b = true ->
  String.compare (Date.isoformat a) (Date.isoformat b)
  = match Date.year a ?= Date.year b with
    | Eq => match Date.month a ?= Date.month b with
            | Eq => Date.day a ?= Date.day b
            | r => r
            end
    | r => r
    end.
Proof.
  intros Ha Hb. apply valid_bounds in Ha, Hb. unfold Date.isoformat.
  rewrite pad4_compare by lia. cbn [String.compare].
  change (Ascii.compare "-" "-") with Eq. cbv iota.
  rewrite pad2_compare by lia. cbn [String.compare].
  change (Ascii.compare "-" "-") with Eq. cbv iota.
  rewrite pad2_compare by lia. cbn [String.compare].
  now destruct (Date.day a ?= Date.day b).
Qed.

Lemma isoformat_leb a b :
  Date.valid a = true -> Date.valid b = true ->
  String.leb (Date.isoformat a) (Date.isoformat b) = Date.leb a b.
Proof.
  intros Ha Hb. unfold String.leb. rewrite (isoformat_compare a b Ha Hb).
  unfold Date.leb, Date.ltb.
  destruct (Z.compare_spec (Date.year a) (Date.year b)) as [Hy | Hy | Hy];
    destruct (Z.compare_spec (Date.month a) (Date.month b)) as [Hm | Hm | Hm];
    destruct (Z.compare_spec (Date.day a) (Date.day b)) as [Hd | Hd | Hd];
    symmetry;
    repeat match goal with
           | |- context [?x <? ?y] => destruct (Z.ltb_spec x y); try lia
           | |- context [?x =? ?y] => destruct (Z.eqb_spec x y); try lia
           end; reflexivity.
Qed.

(** ** ISO dates are read back by [strptime] *)

Lemma digit_is_digit n : Strptime.is_digit (Date.digit n) = true.
Proof.
  unfold Strptime.is_digit. rewrite digit_code.
  pose proof (Z.mod_pos_bound n 10).
  apply andb_true_iff. split; apply N.leb_le; lia.
Qed.

Lemma digit_val n : Strptime.val (Date.digit n) = n mod 10.
Proof.
  unfold Strptime.val. rewrite digit_code.
  pose proof (Z.mod_pos_bound n 10). lia.
Qed.

Lemma group_Y_pad4 y k :
  0 <= y < 10000 -> Strptime.group_Y (Date.pad4 y k) = [(y, k)].
Proof.
  intros Hy. unfold Date.pad4, Date.pad2, Strptime.group_Y.
  rewrite !digit_is_digit, !digit_val. simpl. do 2 f_equal.
  Z.div_mod_to_equations. lia.
Qed.

Lemma group_m_pad2 m k :
  1 <= m <= 12 ->
  exists rest,
    Strptime.group_m (Date.pad2 m (String "-" k)) = (m, String "-" k) :: rest.
Proof.
  intros Hm.
  assert (H : m = 1 \/ m = 2 \/ m = 3 \/ m = 4 \/ m = 5 \/ m = 6 \/ m = 7
              \/ m = 8 \/ m = 9 \/ m = 10 \/ m = 11 \/ m = 12) by lia.
  repeat (destruct H as [-> | H]); try subst m; eexists; reflexivity.
Qed.

Lemma group_d_pad2 d :
  1 <= d <= 31 ->
  exists rest, Strptime.group_d (Date.pad2 d "") = (d, "") :: rest.
Proof.
  intros Hd.
  assert (H : d = 1 \/ d = 2 \/ d = 3 \/ d = 4 \/ d = 5 \/ d = 6 \/ d = 7
              \/ d = 8 \/ d = 9 \/ d = 10 \/ d = 11 \/ d = 12 \/ d = 13
              \/ d = 14 \/ d = 15 \/ d = 16 \/ d = 17 \/ d = 18 \/ d = 19
              \/ d = 20 \/ d = 21 \/ d = 22 \/ d = 23 \/ d = 24 \/ d = 25
              \/ d = 26 \/ d = 27 \/ d = 28 \/ d = 29 \/ d = 30 \/ d = 31)
    by lia.
  repeat (destruct H as [-> | H]); try subst d; eexists; reflexivity.
Qed.

(** [strptime] reads the ISO string of a date back to this date. *)
Lemma strptime_isoformat d :
  Date.valid d = true -> Strptime.strptime (Date.isoformat d) = Some d.
Proof.
  intros Hv. destruct (valid_bounds d Hv) as (Hy & Hm & Hd).
  unfold Strptime.strptime, Strptime.matches, Date.isoformat.
  rewrite group_Y_pad4 by lia.
  destruct (group_m_pad2 (Date.month d) (Date.pad2 (Date.day d) "") Hm)
    as [rest_m Em].
  destruct (group_d_pad2 (Date.day d) Hd) as [rest_d Ed].
  cbn [mbind list_bind Strptime.dash app]. rewrite Em.
  cbn [mbind list_bind Strptime.dash app]. rewrite Ed.
  cbn [mbind list_bind app]. destruct d as [y m dd]. simpl in *.
  now rewrite Hv.
Qed.

(** ** Listing *)

Lemma string_ltb_leb s t : String.ltb t s = negb (String.leb s t).
Proof.
  unfold String.ltb, String.leb. rewrite (String.compare_antisym t s).
  now destruct (String.compare s t).
Qed.

Lemma string_compare_refl s : String.compare s s = Eq.
Proof.
  induction s as [|a s IH]; simpl; [reflexivity|].
  unfold Ascii.compare. now rewrite N.compare_refl.
Qed.

Lemma string_leb_refl s : String.leb s s = true.
Proof. unfold String.leb. now rewrite string_compare_refl. Qed.

Lemma string_leb_empty s : String.leb "" s = true.
Proof. now destruct s. Qed.

(** The query of the active view: the two conditions it holds. *)
Lemma active_query_matches today_s (d : Doc) :
  Mongo.query_matches
    (<["expiration_date" := Mongo.Gte today_s]>
       (<["is_active" := Mongo.Equals (VBool true)]> ∅)) d
  = bool_decide (d !! "is_active" = Some (VBool true))
    && match d !! "expiration_date" with
       | Some (VStr e) => String.leb today_s e
       | _ => false
       end.
Proof.
  unfold Mongo.query_matches. apply eq_true_iff_eq.
  rewrite bool_decide_eq_true, andb_true_iff, bool_decide_eq_true.
  rewrite map_Forall_insert by reflexivity.
  rewrite map_Forall_insert by reflexivity.
  split.
  - intros (He & Ha & _). simpl in *. split.
    + destruct (d !! "is_active") as [v|]; simpl in Ha.
      * apply bool_decide_eq_true in Ha. now subst.
      * discriminate.
    + destruct (d !! "expiration_date") as [[]|]; simpl in He; auto.
  - intros [Ha He]. split; [|split; [|apply map_Forall_empty]].
    + simpl. now destruct (d !! "expiration_date") as [[]|].
    + simpl. rewrite Ha. now apply bool_decide_eq_true.
Qed.

Lemma empty_query_matches (d : Doc) : Mongo.query_matches ∅ d = true.
Proof. apply bool_decide_eq_true, map_Forall_empty. Qed.

Lemma announcement_doc_inv (d : Doc) :
  announcement_doc d = true ->
  exists o m s e a,
    d !! "_id" = Some (VOid o) /\ d !! "message" = Some (VStr m)
    /\ d !! "start_date" = Some (opt_str s)
    /\ d !! "expiration_date" = Some (VStr e)
    /\ d !! "is_active" = Some (VBool a).
Proof.
  unfold announcement_doc. intros H.
  destruct (d !! "_id") as [[| |?|o]|]; try discriminate.
  destruct (d !! "message") as [[| |m|]|]; try discriminate.
  destruct (d !! "expiration_date") as [[| |e|]|];
    destruct (d !! "start_date") as [[| |s|]|]; try discriminate;
    destruct (d !! "is_active") as [[|a| |]|]; try discriminate.
  - now exists o, m, None, e, a.
  - now exists o, m, (Some s), e, a.
Qed.

Lemma expose_id_public (d : Doc) v :
  d !! "_id" = Some v -> expose_id d = Return (public d).
Proof.
  intros H. unfold expose_id, public, subscript, get. now rewrite H.
Qed.

(** The start-date test of the loop on a stored announcement. *)
Lemma skip_test today_s (d : Doc) :
  announcement_doc d = true ->
  (if true && truthy (get d "start_date")
   then start ← subscript d "start_date"; str_gt start today_s
   else Return false)
  = Return (negb (starts_by today_s d)).
Proof.
  intros Hd.
  apply announcement_doc_inv in Hd as (o & m & s & e & a & _ & _ & Hs & _).
  unfold get, subscript, starts_by. rewrite Hs. destruct s as [s|]; simpl.
  - destruct (String.eqb_spec s "") as [->|_]; simpl.
    + now rewrite string_leb_empty.
    + now rewrite string_ltb_leb.
  - reflexivity.
Qed.

Lemma collect_step today_s (d : Doc) (cursor acc : list Doc) :
  announcement_doc d = true ->
  collect true today_s (d :: cursor) acc
  = if starts_by today_s d
    then collect true today_s cursor (acc ++ [public d])%list
    else collect true today_s cursor acc.
Proof.
  intros Hd. cbn [collect]. rewrite (skip_test today_s d Hd).
  apply announcement_doc_inv in Hd as (o & _ & _ & _ & _ & Hid & _).
  rewrite (expose_id_public d _ Hid).
  now destruct (starts_by today_s d).
Qed.

(** The loop of the listing on stored announcements: in the active view
    it keeps the documents whose start date allows it, and every
    document it keeps comes out in public shape. *)
Lemma collect_active today_s (cursor acc : list Doc) :
  Forall (fun d => announcement_doc d = true) cursor ->
  collect true today_s cursor acc
  = Return (acc ++ map public (List.filter (starts_by today_s) cursor))%list.
Proof.
  intros H. revert acc. induction H as [|d cursor Hd _ IH]; intros acc.
  - simpl. now rewrite app_nil_r.
  - rewrite (collect_step _ _ _ _ Hd). cbn [List.filter].
    destruct (starts_by today_s d); rewrite IH; [|reflexivity].
    cbn [map]. now rewrite <- app_assoc.
Qed.

Lemma filter_visible today_s (c : list Doc) :
  List.filter (starts_by today_s)
    (List.filter
       (Mongo.query_matches
          (<["expiration_date" := Mongo.Gte today_s]>
             (<["is_active" := Mongo.Equals (VBool true)]> ∅))) c)
  = List.filter (visible today_s) c.
Proof.
  induction c as [|d c IH]; simpl; [reflexivity|].
  rewrite active_query_matches. unfold visible.
  destruct (bool_decide _ && _); simpl; [|exact IH].
  destruct (starts_by today_s d); now rewrite IH.
Qed.

Lemma Forall_list_filter {A} (P : A -> Prop) f (l : list A) :
  Forall P l -> Forall P (List.filter f l).
Proof.
  induction 1 as [|x l Hx _ IH]; simpl; [constructor|].
  destruct (f x); [now constructor | exact IH].
Qed.

Lemma get_announcements_active today (c : list Doc) :
  Forall (fun d => announcement_doc d = true) c ->
  get_announcements today true c
  = (Return (map public (List.filter (visible (Date.isoformat today)) c)), c).
Proof.
  intros Hc. unfold get_announcements. run. unfold Mongo.find.
  rewrite collect_active by now apply Forall_list_filter.
  now rewrite filter_visible.
Qed.

Lemma elem_of_map_filter {A B} (g : A -> B) f (l : list A) x :
  x ∈ l -> f x = true -> g x ∈ map g (List.filter f l).
Proof.
  intros Hx Hf. apply list_elem_of_In, in_map, filter_In.
  split; [now apply list_elem_of_In | exact Hf].
Qed.

Lemma is_iso_inv s :
  is_iso s = true ->
  exists d, Strptime.strptime s = Some d /\ Date.valid d = true
            /\ s = Date.isoformat d.
Proof.
  unfold is_iso. destruct (Strptime.strptime s) as [d|] eqn:E; [|discriminate].
  intros H. apply String.eqb_eq in H. exists d. split; [reflexivity|].
  split; [|now symmetry]. rewrite <- H in E.
  unfold Strptime.strptime in E.
  destruct (Strptime.matches _) as [|[[[y m] dd] [|? ?]] ?]; try discriminate.
  destruct (Date.valid (Date.mk y m dd)) eqn:Hv; [|discriminate].
  now injection E as <-.
Qed.

(** On a document with ISO dates the comparison of the stored strings
    is the comparison of the dates. *)
Lemma visible_calendar today (d : Doc) :
  Date.valid today = true -> iso_dates d = true ->
  visible (Date.isoformat today) d = calendar_visible today d.
Proof.
  intros Ht Hiso. unfold iso_dates in Hiso. apply andb_true_iff in Hiso as [He Hs].
  unfold visible, calendar_visible, starts_by. f_equal; [f_equal|].
  - destruct (d !! "expiration_date") as [[| |e|]|]; try reflexivity.
    apply is_iso_inv in He as (ed & -> & Hv & ->). now apply isoformat_leb.
  - destruct (d !! "start_date") as [[| |s|]|]; try reflexivity.
    apply is_iso_inv in Hs as (sd & -> & Hv & ->). now apply isoformat_leb.
Qed.

Lemma list_filter_agree {A} (f g : A -> bool) (l : list A) :
  Forall (fun x => f x = g x) l -> List.filter f l = List.filter g l.
Proof.
  induction 1 as [|x l Hx _ IH]; simpl; [reflexivity|].
  now rewrite Hx, IH.
Qed.

(** C1: on a collection of stored announcements the active view returns,
    in public shape, exactly the documents that are active, do not
    expire before the reference date and have no start date or one not
    after it.  The reference date is [today] in ISO form and dates are
    compared as the stored strings, which for dates stored in ISO form is
    the comparison of the calendar dates.  Both bounds are inclusive: a
    document that expires on the reference date is listed, and so is one
    that starts on it. *)
Theorem active_listing_is_visible today (c : list Doc)
  (Hc : Forall (fun d => announcement_doc d = true) c) :
  exists listed,
    get_announcements today true c = (Return listed, c)
    /\ listed = map public (List.filter (visible (Date.isoformat today)) c)
    /\ (Date.valid today = true ->
        Forall (fun d => iso_dates d = true) c ->
        listed = map public (List.filter (calendar_visible today) c))
    /\ (forall d, d ∈ c ->
          d !! "is_active" = Some (VBool true) ->
          d !! "expiration_date" = Some (VStr (Date.isoformat today)) ->
          starts_by (Date.isoformat today) d = true ->
          public d ∈ listed)
    /\ (forall d e, d ∈ c ->
          d !! "is_active" = Some (VBool true) ->
          d !! "expiration_date" = Some (VStr e) ->
          String.leb (Date.isoformat today) e = true ->
          d !! "start_date" = Some (VStr (Date.isoformat today)) ->
          public d ∈ listed).
Proof.
  eexists. split; [now apply get_announcements_active|].
  split; [reflexivity|]. split; [|split].
  - intros Ht Hiso. f_equal. apply list_filter_agree.
    eapply Forall_impl; [exact Hiso|]. intros d Hd.
    now apply visible_calendar.
  - intros d Hd Ha He Hs. apply elem_of_map_filter; [exact Hd|].
    unfold visible. rewrite Ha, He, Hs, string_leb_refl.
    now rewrite bool_decide_eq_true_2.
  - intros d e Hd Ha He Hle Hs. apply elem_of_map_filter; [exact Hd|].
    unfold visible, starts_by. rewrite Ha, He, Hs, Hle, string_leb_refl.
    now rewrite bool_decide_eq_true_2.
Qed.

Lemma active_listing_is_visible_witness :
  Forall (fun d => announcement_doc d = true) Sample.store
  /\ get_announcements Sample.today true Sample.store
     = (Return [public (<["_id" := VOid Sample.oid1]> (dict Sample.exam_week))],
        Sample.store).
Proof.
  assert (H : Forall (fun d => announcement_doc d = true) Sample.store)
    by (repeat constructor).
  split; [exact H|].
  destruct (active_listing_is_visible Sample.today Sample.store H)
    as (listed & Hrun & -> & _).
  exact Hrun.
Defined.

(** ** Deletion *)

Lemma delete_announcement_run teachers id username (c : list Doc) o
  (Hteacher : known_teacher teachers username = true)
  (Hid : Bson.parse id = Some o) :
  delete_announcement teachers id username c =
  let '(result, c') := Mongo.delete_one (VOid o) c in
  if Mongo.deleted_count result =? 0 then (Raise not_found, c')
  else (Return deleted_message, c').
Proof.
  unfold known_teacher in Hteacher. unfold delete_announcement.
  rewrite Hteacher, Hid. run.
  destruct (Mongo.delete_one (VOid o) c) as [res c']. simpl.
  now destruct (Mongo.deleted_count res =? 0).
Qed.

(** C8: for a known teacher and a well-formed identifier, delete fails
    with [not_found] (status 404) when no record has this key; and on a
    collection with unique keys, whatever the first delete of an
    identifier did, a second delete of it fails with [not_found]. *)
Theorem delete_missing_not_found teachers id username (c : list Doc) o
  (Hteacher : known_teacher teachers username = true)
  (Hid : Bson.parse id = Some o) :
  (Mongo.find_one (VOid o) c = None ->
   delete_announcement teachers id username c = (Raise not_found, c))
  /\ (NoDup (ids c) ->
      forall r1 c1,
        delete_announcement teachers id username c = (r1, c1) ->
        delete_announcement teachers id username c1 = (Raise not_found, c1)).
Proof.
  assert (Habsent : forall c0 : list Doc,
             Mongo.find_one (VOid o) c0 = None ->
             delete_announcement teachers id username c0 = (Raise not_found, c0)).
  { intros c0 Hn. rewrite (delete_announcement_run _ _ _ _ o Hteacher Hid).
    now rewrite (delete_one_absent _ _ Hn). }
  split; [apply Habsent|].
  intros Hnd r1 c1 H1. apply Habsent.
  rewrite (delete_announcement_run _ _ _ _ o Hteacher Hid) in H1.
  destruct (Mongo.find_one (VOid o) c) as [d|] eqn:Hf.
  - destruct (delete_one_present _ _ _ Hf) as (c' & Hd & Hgone & _).
    rewrite Hd in H1. simpl in H1. injection H1 as _ <-. now apply Hgone.
  - rewrite (delete_one_absent _ _ Hf) in H1. simpl in H1.
    now injection H1 as _ <-.
Qed.

Lemma delete_missing_not_found_witness :
  delete_announcement Sample.teachers "665f1c2ab3d4e5f601234567" "mrodriguez"
    Sample.store
  = (Return deleted_message,
     [<["_id" := VOid Sample.oid2]> (dict Sample.old_notice)])
  /\ delete_announcement Sample.teachers "665f1c2ab3d4e5f601234567" "mrodriguez"
       [<["_id" := VOid Sample.oid2]> (dict Sample.old_notice)]
     = (Raise not_found,
        [<["_id" := VOid Sample.oid2]> (dict Sample.old_notice)]).
Proof.
  split; [reflexivity|].
  refine (proj2 (delete_missing_not_found Sample.teachers _ "mrodriguez"
                   Sample.store Sample.oid1 _ _) _ _ _ _);
    [reflexivity | reflexivity | | reflexivity].
  apply (bool_decide_unpack _). vm_compute. reflexivity.
Defined.

(** ** Creation *)

(** The date checks of creation, one after the other. *)
Lemma validate_create_cases today X :
  validate_create today X =
  match Strptime.strptime (AnnouncementCreate.expiration_date X) with
  | None => Raise invalid_date_format
  | Some e =>
      if Date.ltb e today then Raise past_expiration
      else match AnnouncementCreate.start_date X with
           | None => Return ()
           | Some s =>
               if String.eqb s "" then Return ()
               else match Strptime.strptime s with
                    | None => Raise invalid_date_format
                    | Some sd =>
                        if Date.ltb e sd then Raise start_after_expiration
                        else Return ()
                    end
           end
  end.
Proof.
  unfold validate_create, strptime, mbind, Outcome_bind.
  destruct (Strptime.strptime _) as [e|]; [|reflexivity]. simpl.
  destruct (Date.ltb e today); [reflexivity|].
  destruct (AnnouncementCreate.start_date X) as [s|]; [|reflexivity]. simpl.
  destruct (String.eqb s ""); [reflexivity|]. simpl.
  destruct (Strptime.strptime s) as [sd|]; [|reflexivity]. simpl.
  now destruct (Date.ltb e sd).
Qed.

Lemma validate_create_invalid today X :
  fails_with 400 (validate_create today X) = invalid_create today X
  /\ (invalid_create today X = false -> validate_create today X = Return ()).
Proof.
  rewrite validate_create_cases. unfold invalid_create.
  destruct (Strptime.strptime _) as [e|]; [|now split].
  destruct (Date.ltb e today); [now split|]. simpl.
  destruct (AnnouncementCreate.start_date X) as [s|]; [|now split].
  destruct (String.eqb s ""); [now split|].
  destruct (Strptime.strptime s) as [sd|]; [|now split].
  now destruct (Date.ltb e sd).
Qed.

Lemma dict_no_id X : dict X !! "_id" = None.
Proof. reflexivity. Qed.

Lemma public_of_inserted (d : Doc) v w :
  d !! "_id" = None ->
  delete "_id" (<["id" := v]> (<["_id" := w]> d)) = <["id" := v]> d.
Proof.
  intros H. rewrite delete_insert_ne by discriminate.
  now rewrite delete_insert_id.
Qed.

(** What [create_announcement] does for a known teacher: the date checks
    decide, then the insert. *)
Lemma create_announcement_known teachers today new_id X username (c : list Doc)
  (Hteacher : known_teacher teachers username = true) :
  create_announcement teachers today new_id X username c =
  match validate_create today X with
  | Raise e => (Raise e, c)
  | Return _ =>
      match Mongo.find_one (VOid new_id) c with
      | Some _ => (Raise DuplicateKeyError, c)
      | None =>
          (Return (<["id" := VStr (Bson.str new_id)]> (dict X)),
           (c ++ [<["_id" := VOid new_id]> (dict X)])%list)
      end
  end.
Proof.
  unfold known_teacher in Hteacher. unfold create_announcement.
  rewrite Hteacher. run.
  destruct (validate_create today X) as [[]|e]; [|reflexivity].
  unfold Mongo.insert_one. rewrite dict_no_id. simpl.
  destruct (Mongo.find_one (VOid new_id) c); [reflexivity|]. simpl.
  now rewrite (public_of_inserted _ _ _ (dict_no_id X)).
Qed.

(** A successful creation went through every step. *)
Lemma create_announcement_success teachers today new_id X username
  (c c' : list Doc) p :
  create_announcement teachers today new_id X username c = (Return p, c') ->
  validate_create today X = Return ()
  /\ Mongo.find_one (VOid new_id) c = None
  /\ p = <["id" := VStr (Bson.str new_id)]> (dict X)
  /\ c' = (c ++ [<["_id" := VOid new_id]> (dict X)])%list.
Proof.
  intros H. destruct (known_teacher teachers username) eqn:Ht.
  2:{ unfold create_announcement, known_teacher in *. rewrite Ht in H.
      discriminate. }
  rewrite (create_announcement_known _ _ _ _ _ _ Ht) in H.
  destruct (validate_create today X) as [[]|e]; [|discriminate].
  destruct (Mongo.find_one (VOid new_id) c); [discriminate|].
  injection H as <- <-. now repeat split.
Qed.

(** C2, as the code has it: for a known teacher, creation fails with
    status 400 exactly when the expiration date is not a well-formed date,
    or it is before the reference date, or a non-empty start date is
    malformed or after the expiration date; an empty start date counts as
    absent.  The checks report in this order, none of them touches the
    collection, and when none fires the record is appended under the new
    key (which the collection must not hold yet). *)
Theorem create_date_checks teachers today new_id X username (c : list Doc)
  (Hteacher : known_teacher teachers username = true) :
  let exp := AnnouncementCreate.expiration_date X in
  let start := AnnouncementCreate.start_date X in
  let out := create_announcement teachers today new_id X username c in
  fails_with 400 out.1 = invalid_create today X
  /\ (Strptime.strptime exp = None -> out = (Raise invalid_date_format, c))
  /\ (forall e, Strptime.strptime exp = Some e -> Date.ltb e today = true ->
        out = (Raise past_expiration, c))
  /\ (forall e s, Strptime.strptime exp = Some e -> Date.ltb e today = false ->
        start = Some s -> s <> "" -> Strptime.strptime s = None ->
        out = (Raise invalid_date_format, c))
  /\ (forall e s sd, Strptime.strptime exp = Some e -> Date.ltb e today = false ->
        start = Some s -> s <> "" -> Strptime.strptime s = Some sd ->
        Date.ltb e sd = true ->
        out = (Raise start_after_expiration, c))
  /\ (invalid_create today X = false ->
      Mongo.find_one (VOid new_id) c = None ->
      out = (Return (<["id" := VStr (Bson.str new_id)]> (dict X)),
             (c ++ [<["_id" := VOid new_id]> (dict X)])%list)).
Proof.
  intros exp start out. subst exp start out.
  rewrite (create_announcement_known _ _ _ _ _ _ Hteacher).
  destruct (validate_create_invalid today X) as [H400 Hvalid].
  split; [|split; [|split; [|split; [|split]]]].
  - rewrite <- H400. destruct (validate_create today X) as [[]|e]; [|reflexivity].
    now destruct (Mongo.find_one (VOid new_id) c).
  - intros He. rewrite validate_create_cases, He. reflexivity.
  - intros e He Hpast. rewrite validate_create_cases, He, Hpast. reflexivity.
  - intros e s He Hpast Hs Hne Hbad.
    rewrite validate_create_cases, He, Hpast, Hs, Hbad.
    apply String.eqb_neq in Hne. now rewrite Hne.
  - intros e s sd He Hpast Hs Hne Hsd Hafter.
    rewrite validate_create_cases, He, Hpast, Hs, Hsd, Hafter.
    apply String.eqb_neq in Hne. now rewrite Hne.
  - intros Hok Hfresh. rewrite (Hvalid Hok), Hfresh. reflexivity.
Qed.

Lemma create_date_checks_witness :
  known_teacher Sample.teachers "mrodriguez" = true
  /\ create_announcement Sample.teachers Sample.today Sample.oid3
       Sample.old_notice "mrodriguez" Sample.store
     = (Raise past_expiration, Sample.store).
Proof.
  split; [reflexivity|].
  refine (proj1 (proj2 (proj2 (create_date_checks Sample.teachers Sample.today
            Sample.oid3 Sample.old_notice "mrodriguez" Sample.store _)))
            (Date.mk 2024 3 15) _ _);
    reflexivity.
Defined.

(** C2 as stated fails: an empty start date is supplied and is not a
    well-formed date, and creation succeeds. *)
Lemma create_accepts_empty_start_date :
  known_teacher Sample.teachers "mrodriguez" = true
  /\ AnnouncementCreate.start_date Sample.assembly = Some ""
  /\ Strptime.strptime "" = None
  /\ stated_invalid_create Sample.today Sample.assembly = true
  /\ create_announcement Sample.teachers Sample.today Sample.oid3
       Sample.assembly "mrodriguez" Sample.store
     = (Return (<["id" := VStr (Bson.str Sample.oid3)]> (dict Sample.assembly)),
        (Sample.store ++ [<["_id" := VOid Sample.oid3]> (dict Sample.assembly)])%list)
  /\ ~ (fails_with 400
          (create_announcement Sample.teachers Sample.today Sample.oid3
             Sample.assembly "mrodriguez" Sample.store).1 = true
        <-> stated_invalid_create Sample.today Sample.assembly = true).
Proof.
  repeat split; try reflexivity.
  intros [_ H]. specialize (H eq_refl). discriminate H.
Qed.

(** C7: when a creation succeeds, the returned record carries the
    assigned identifier in string form, and the record stored under this
    identifier has the four fields of the request unchanged, with the key
    as the only field added. *)
Theorem create_round_trip teachers today new_id X username (c c' : list Doc) p
  (Hcreated : create_announcement teachers today new_id X username c
              = (Return p, c')) :
  p !! "id" = Some (VStr (Bson.str new_id))
  /\ (Bson.well_formed new_id = true ->
      Bson.parse (Bson.str new_id) = Some new_id)
  /\ exists stored,
       Mongo.find_one (VOid new_id) c' = Some stored
       /\ stored !! "message" = Some (VStr (AnnouncementCreate.message X))
       /\ stored !! "start_date"
          = Some (opt_str (AnnouncementCreate.start_date X))
       /\ stored !! "expiration_date"
          = Some (VStr (AnnouncementCreate.expiration_date X))
       /\ stored !! "is_active" = Some (VBool (AnnouncementCreate.is_active X))
       /\ stored !! "_id" = Some (VOid new_id)
       /\ delete "_id" stored = dict X.
Proof.
  apply create_announcement_success in Hcreated as (_ & Hfresh & -> & ->).
  split; [apply lookup_insert_eq|]. split.
  - unfold Bson.well_formed, Bson.parse, Bson.str.
    destruct new_id as [b]. simpl. intros H.
    apply andb_true_iff in H as [Hlen Hhex]. rewrite Hlen. simpl.
    assert (Hall : Bson.all_lower_hex b = true ->
                   Bson.all_hex b = true /\ Bson.lower_all b = b).
    { clear. induction b as [|a b IH]; simpl; [now split|].
      intros H. apply andb_true_iff in H as [Ha Hb].
      destruct (IH Hb) as [-> ->]. unfold Bson.is_hex, Bson.lower.
      unfold Bson.is_lower_hex in Ha. rewrite Ha. simpl. split; [reflexivity|].
      f_equal. destruct (Strptime.in_range "A" "F" a) eqn:Hup; [|reflexivity].
      exfalso. unfold Strptime.in_range in Ha, Hup. simpl in Ha, Hup.
      apply andb_true_iff in Hup as [H1 H2]. apply N.leb_le in H1, H2.
      apply orb_true_iff in Ha as [Ha|Ha];
        apply andb_true_iff in Ha as [H3 H4]; apply N.leb_le in H3, H4; lia. }
    destruct (Hall Hhex) as [-> ->]. reflexivity.
  - exists (<["_id" := VOid new_id]> (dict X)). split.
    + apply find_one_app_new; [exact Hfresh | apply lookup_insert_eq].
    + repeat split; reflexivity.
Qed.

Lemma create_round_trip_witness :
  create_announcement Sample.teachers Sample.today Sample.oid3
    Sample.assembly "mrodriguez" Sample.store
  = (Return (<["id" := VStr (Bson.str Sample.oid3)]> (dict Sample.assembly)),
     (Sample.store ++ [<["_id" := VOid Sample.oid3]> (dict Sample.assembly)])%list)
  /\ exists stored,
       Mongo.find_one (VOid Sample.oid3)
         (Sample.store ++ [<["_id" := VOid Sample.oid3]> (dict Sample.assembly)])
       = Some stored
       /\ delete "_id" stored = dict Sample.assembly.
Proof.
  assert (H : create_announcement Sample.teachers Sample.today Sample.oid3
                Sample.assembly "mrodriguez" Sample.store
              = (Return (<["id" := VStr (Bson.str Sample.oid3)]>
                           (dict Sample.assembly)),
                 (Sample.store
                  ++ [<["_id" := VOid Sample.oid3]> (dict Sample.assembly)])%list))
    by reflexivity.
  split; [exact H|].
  destruct (create_round_trip _ _ _ _ _ _ _ _ H)
    as (_ & _ & stored & Hfind & _ & _ & _ & _ & _ & Hfields).
  exists stored. split; [exact Hfind | exact Hfields].
Defined.

(** ** The public shape *)

Lemma public_shape (d : Doc) k :
  d !! "_id" = Some k ->
  public d !! "_id" = None /\ public d !! "id" = Some (VStr (py_str k)).
Proof.
  intros H. unfold public, get. rewrite H. simpl. split.
  - apply lookup_delete_eq.
  - rewrite lookup_delete_ne by discriminate. apply lookup_insert_eq.
Qed.

(** Whatever the collection holds, every record the loop adds is the
    public shape of a document of the cursor. *)
Lemma collect_public active_only today_s (cursor acc listed : list Doc) :
  collect active_only today_s cursor acc = Return listed ->
  forall p, p ∈ listed ->
    p ∈ acc \/ exists d k, d ∈ cursor /\ d !! "_id" = Some k /\ p = public d.
Proof.
  revert acc. induction cursor as [|d cursor IH]; intros acc H p Hp.
  - simpl in H. injection H as <-. now left.
  - cbn [collect] in H.
    destruct (if active_only && truthy (get d "start_date")
              then start ← subscript d "start_date"; str_gt start today_s
              else Return false) as [skip|e]; [|discriminate].
    unfold mbind at 1, Outcome_bind at 1 in H.
    assert (Hlater : forall x, (exists d0 k, d0 ∈ cursor /\ d0 !! "_id" = Some k
                                  /\ x = public d0) ->
                     exists d0 k, d0 ∈ d :: cursor /\ d0 !! "_id" = Some k
                                  /\ x = public d0).
    { intros x (d0 & k & Hin & Hk & ->). exists d0, k.
      split; [apply elem_of_cons; now right | now split]. }
    destruct skip.
    + destruct (IH _ H p Hp) as [Hacc | Hcur]; [now left | right; now apply Hlater].
    + destruct (d !! "_id") as [k|] eqn:Hk.
      * rewrite (expose_id_public d k Hk) in H.
        unfold mbind, Outcome_bind in H.
        destruct (IH _ H p Hp) as [Hacc | Hcur]; [|right; now apply Hlater].
        apply elem_of_app in Hacc as [Hacc | Hnew]; [now left|].
        apply list_elem_of_singleton in Hnew as ->. right.
        exists d, k. split; [apply elem_of_cons; now left | now split].
      * unfold expose_id, subscript in H. rewrite Hk in H. discriminate.
Qed.

(** C9: a record returned by list, create or update has no ["_id"]
    field, and its ["id"] field is the string form of the key under which
    the record is stored. *)
Theorem returned_records_are_public teachers today :
  (forall active_only (c c' : list Doc) listed,
      get_announcements today active_only c = (Return listed, c') ->
      forall p, p ∈ listed ->
        p !! "_id" = None
        /\ exists d k, d ∈ c /\ d !! "_id" = Some k
                       /\ p !! "id" = Some (VStr (py_str k)))
  /\ (forall new_id X username (c c' : list Doc) p,
        create_announcement teachers today new_id X username c = (Return p, c') ->
        p !! "_id" = None
        /\ p !! "id" = Some (VStr (py_str (VOid new_id)))
        /\ is_Some (Mongo.find_one (VOid new_id) c'))
  /\ (forall id req username (c c' : list Doc) p,
        update_announcement teachers id req username c = (Return p, c') ->
        p !! "_id" = None
        /\ exists o, Bson.parse id = Some o
                     /\ p !! "id" = Some (VStr (py_str (VOid o)))
                     /\ is_Some (Mongo.find_one (VOid o) c')).
Proof.
  split; [|split].
  - intros active_only c c' listed H p Hp. unfold get_announcements in H. run.
    destruct (collect _ _ _ _) as [l|e] eqn:Hl; [|discriminate].
    injection H as <- <-.
    destruct (collect_public _ _ _ _ _ Hl p Hp) as [Hnil | (d & k & Hd & Hk & ->)].
    + now apply elem_of_nil in Hnil.
    + destruct (public_shape d k Hk) as [Hno Hid]. split; [exact Hno|].
      exists d, k. split; [|now split].
      unfold Mongo.find in Hd. apply list_elem_of_In, filter_In in Hd as [Hd _].
      now apply list_elem_of_In.
  - intros new_id X username c c' p H.
    apply create_announcement_success in H as (_ & Hfresh & -> & ->).
    split; [reflexivity|]. split; [apply lookup_insert_eq|].
    rewrite (find_one_app_new _ _ (<["_id" := VOid new_id]> (dict X)) Hfresh);
      [eauto | apply lookup_insert_eq].
  - intros id req username c c' p H.
    apply update_announcement_success in H as (o & d & Hid & Hd & _ & -> & ->).
    destruct (update_one_present (VOid o) _ c d Hd (build_update_doc_no_id req))
      as (n & c' & Hu & Hfind & _ & _).
    rewrite Hu. simpl.
    apply find_one_Some in Hfind as Hstored. destruct Hstored as [_ Hk].
    destruct (public_shape _ _ Hk) as [Hno Hpid]. split; [exact Hno|].
    exists o. split; [exact Hid|]. split; [exact Hpid | eauto].
Qed.

Lemma returned_records_are_public_witness :
  get_announcements Sample.today true Sample.store
  = (Return [public Sample.stored1], Sample.store)
  /\ public Sample.stored1 !! "_id" = None
  /\ exists d k, d ∈ Sample.store /\ d !! "_id" = Some k
                 /\ public Sample.stored1 !! "id" = Some (VStr (py_str k)).
Proof.
  assert (H : get_announcements Sample.today true Sample.store
              = (Return [public Sample.stored1], Sample.store))
    by reflexivity.
  split; [exact H|].
  refine (proj1 (returned_records_are_public Sample.teachers Sample.today)
            true Sample.store Sample.store [public Sample.stored1] H
            (public Sample.stored1) _).
  apply list_elem_of_singleton; reflexivity.
Defined.

(** ** The stored shape is kept *)

Lemma announcement_doc_dict X o :
  announcement_doc (<["_id" := VOid o]> (dict X)) = true.
Proof. destruct X as [m [s|] e a]; reflexivity. Qed.

Lemma union_lookup_field req (d : Doc) k :
  (build_update_doc req ∪ d) !! k
  = match build_update_doc req !! k with
    | Some v => Some v
    | None => d !! k
    end.
Proof.
  rewrite lookup_union. destruct (build_update_doc req !! k); [|apply left_id_L; apply _].
  now destruct (d !! k).
Qed.

Lemma announcement_doc_update req (d : Doc) :
  announcement_doc d = true ->
  announcement_doc (build_update_doc req ∪ d) = true.
Proof.
  intros H.
  apply announcement_doc_inv in H as (o & m & s & e & a & Hi & Hm & Hs & He & Ha).
  unfold announcement_doc. rewrite !union_lookup_field, !build_update_doc_lookup.
  simpl. rewrite Hi, Hm, Hs, He, Ha.
  destruct req as [rm rs re ra]. simpl.
  destruct rm, rs, re, ra, s; reflexivity.
Qed.

Lemma update_one_keeps_store id req (c : list Doc) :
  store_ok c -> store_ok (Mongo.update_one id (build_update_doc req) c).2.
Proof.
  intros [Htyped Hnd].
  destruct (Mongo.find_one id c) as [d|] eqn:Hf.
  - destruct (update_one_present id _ c d Hf (build_update_doc_no_id req))
      as (n & c' & Hu & _ & Hall & Hids).
    rewrite Hu. simpl. split; [|now rewrite Hids].
    apply find_one_Some in Hf as [Hd _].
    assert (Hdt : announcement_doc d = true)
      by (rewrite Forall_forall in Htyped; now apply Htyped).
    clear Hu Hids Hnd Hd. induction Hall as [|x y c c' Hxy _ IH]; [constructor|].
    apply Forall_cons in Htyped as [Hx Hc]. constructor.
    + destruct Hxy as [-> | [-> ->]]; [exact Hx | now apply announcement_doc_update].
    + now apply IH.
  - now rewrite (update_one_absent _ _ _ Hf).
Qed.

Lemma find_one_unique id (c : list Doc) (y : Doc) :
  NoDup (ids c) -> y ∈ c -> y !! "_id" = Some id ->
  Mongo.find_one id c = Some y.
Proof.
  induction c as [|d c IH]; intros Hnd Hy Hid.
  - now apply elem_of_nil in Hy.
  - simpl in Hnd. apply NoDup_cons in Hnd as [Hd Hnd]. simpl.
    apply elem_of_cons in Hy as [<- | Hy].
    + apply has_id_true in Hid. now rewrite Hid.
    + destruct (Mongo.has_id id d) eqn:E; [|now apply IH].
      apply has_id_true in E. exfalso. apply Hd. rewrite E, <- Hid.
      unfold ids. apply list_elem_of_In, in_map. now apply list_elem_of_In.
Qed.

(** In the active view of a collection of announcements, the record of
    key [o] is listed exactly when the document stored under [o] is
    visible. *)
Lemma listed_by_id today (c : list Doc) o d :
  store_ok c -> Mongo.find_one (VOid o) c = Some d ->
  exists listed,
    get_announcements today true c = (Return listed, c)
    /\ ((exists q, q ∈ listed /\ q !! "id" = Some (VStr (Bson.str o)))
        <-> visible (Date.isoformat today) d = true).
Proof.
  intros [Htyped Hnd] Hd. eexists. split; [now apply get_announcements_active|].
  apply find_one_Some in Hd as Hd'. destruct Hd' as [Hin Hk]. split.
  - intros (q & Hq & Hqid).
    apply list_elem_of_In, in_map_iff in Hq as (y & <- & Hy).
    apply filter_In in Hy as [Hy Hvis]. apply list_elem_of_In in Hy.
    assert (Hyt : announcement_doc y = true)
      by (rewrite Forall_forall in Htyped; now apply Htyped).
    apply announcement_doc_inv in Hyt as (o' & _ & _ & _ & _ & Hyk & _).
    destruct (public_shape y _ Hyk) as [_ Hp]. rewrite Hp in Hqid.
    injection Hqid as Hoo. destruct o, o'. simpl in Hoo. subst.
    rewrite (find_one_unique _ _ _ Hnd Hy Hyk) in Hd. now injection Hd as <-.
  - intros Hvis. exists (public d). split.
    + now apply elem_of_map_filter.
    + now destruct (public_shape d _ Hk).
Qed.

(** ** Partial update *)

Lemma updated_fields req (d : Doc) :
  let d' := build_update_doc req ∪ d in
  d' !! "message"
  = supplied_or_stored VStr (AnnouncementUpdate.message req) (d !! "message")
  /\ d' !! "start_date"
     = supplied_or_stored VStr (AnnouncementUpdate.start_date req)
         (d !! "start_date")
  /\ d' !! "expiration_date"
     = supplied_or_stored VStr (AnnouncementUpdate.expiration_date req)
         (d !! "expiration_date")
  /\ d' !! "is_active"
     = supplied_or_stored VBool (AnnouncementUpdate.is_active req)
         (d !! "is_active")
  /\ (forall k, k <> "message" -> k <> "start_date" ->
                k <> "expiration_date" -> k <> "is_active" ->
                d' !! k = d !! k).
Proof.
  intros d'. subst d'. repeat split.
  1-4: rewrite union_lookup_field, build_update_doc_lookup; simpl;
       destruct req as [[] [] [] []]; reflexivity.
  intros k H1 H2 H3 H4. rewrite union_lookup_field, build_update_doc_lookup.
  now repeat case_decide.
Qed.

(** C3: after a successful update the record stored under the identifier
    has, in each of the four fields, the value the request supplies or,
    when it supplies none, the value stored before; every other field and
    every other document is as before.  An update that supplies only
    [is_active = false] therefore keeps message and dates, and in a
    collection of announcements the record is in no later active
    listing. *)
Theorem update_changes_only_supplied_fields teachers id req username
  (c c' : list Doc) p
  (Hupdated : update_announcement teachers id req username c = (Return p, c')) :
  exists o d d',
    Bson.parse id = Some o
    /\ Mongo.find_one (VOid o) c = Some d
    /\ Mongo.find_one (VOid o) c' = Some d'
    /\ d' !! "message"
       = supplied_or_stored VStr (AnnouncementUpdate.message req) (d !! "message")
    /\ d' !! "start_date"
       = supplied_or_stored VStr (AnnouncementUpdate.start_date req)
           (d !! "start_date")
    /\ d' !! "expiration_date"
       = supplied_or_stored VStr (AnnouncementUpdate.expiration_date req)
           (d !! "expiration_date")
    /\ d' !! "is_active"
       = supplied_or_stored VBool (AnnouncementUpdate.is_active req)
           (d !! "is_active")
    /\ (forall k, k <> "message" -> k <> "start_date" ->
                  k <> "expiration_date" -> k <> "is_active" ->
                  d' !! k = d !! k)
    /\ Forall2 (fun x y : Doc => y = x \/ (x = d /\ y = d')) c c'
    /\ (req = AnnouncementUpdate.mk None None None (Some false) ->
        d' !! "message" = d !! "message"
        /\ d' !! "start_date" = d !! "start_date"
        /\ d' !! "expiration_date" = d !! "expiration_date"
        /\ d' !! "is_active" = Some (VBool false)
        /\ (store_ok c ->
            forall today, exists listed,
              get_announcements today true c' = (Return listed, c')
              /\ forall q, q ∈ listed ->
                   q !! "id" <> Some (VStr (Bson.str o)))).
Proof.
  apply update_announcement_success in Hupdated
    as (o & d & Hid & Hd & _ & -> & ->).
  destruct (update_one_present (VOid o) _ c d Hd (build_update_doc_no_id req))
    as (n & c' & Hu & Hfind & Hall & Hids).
  pose proof (update_one_keeps_store (VOid o) req c) as Hkeep.
  rewrite Hu in *. simpl in *.
  destruct (updated_fields req d) as (Hm & Hs & He & Ha & Hrest).
  exists o, d, (build_update_doc req ∪ d).
  do 9 (split; [assumption|]).
  intros ->. simpl in *. do 4 (split; [assumption|]).
  intros Hok today.
  destruct (listed_by_id today c' o _ (Hkeep Hok) Hfind) as (listed & Hrun & Hiff).
  exists listed. split; [exact Hrun|]. intros q Hq Hqid.
  assert (Hvis : visible (Date.isoformat today) (build_update_doc
             (AnnouncementUpdate.mk None None None (Some false)) ∪ d) = true)
    by (apply Hiff; eauto).
  unfold visible in Hvis. rewrite Ha in Hvis. discriminate.
Qed.

Lemma update_changes_only_supplied_fields_witness :
  update_announcement Sample.teachers "665f1c2ab3d4e5f601234567"
    Sample.deactivate "mrodriguez" Sample.store
  = (Return (public (build_update_doc Sample.deactivate ∪ Sample.stored1)),
     [build_update_doc Sample.deactivate ∪ Sample.stored1; Sample.stored2])
  /\ exists o (d d' : Doc),
       Bson.parse "665f1c2ab3d4e5f601234567" = Some o
       /\ Mongo.find_one (VOid o) Sample.store = Some d
       /\ d' !! "message" = d !! "message"
       /\ d' !! "start_date" = d !! "start_date"
       /\ d' !! "expiration_date" = d !! "expiration_date"
       /\ d' !! "is_active" = Some (VBool false).
Proof.
  assert (H : update_announcement Sample.teachers "665f1c2ab3d4e5f601234567"
                Sample.deactivate "mrodriguez" Sample.store
              = (Return (public (build_update_doc Sample.deactivate
                                 ∪ Sample.stored1)),
                 [build_update_doc Sample.deactivate ∪ Sample.stored1;
                  Sample.stored2]))
    by reflexivity.
  split; [exact H|].
  destruct (update_changes_only_supplied_fields _ _ _ _ _ _ _ H)
    as (o & d & d' & Hid & Hd & _ & _ & _ & _ & _ & _ & _ & Honly).
  destruct (Honly eq_refl) as (Hm & Hs & He & Ha & _).
  exists o, d, d'. repeat split; assumption.
Defined.

(** C10: for a known teacher and an existing record, an update whose
    [start_date] is the empty string succeeds as soon as the effective
    expiration date is well formed: the start date is neither parsed nor
    compared.  The empty string is stored, and in a collection of
    announcements the record is then listed in the active view exactly
    when it is active and has not expired, whatever the reference date:
    no lower bound applies. *)
Theorem update_with_empty_start_date teachers id req username
  (c : list Doc) o d e
  (Hteacher : known_teacher teachers username = true)
  (Hid : Bson.parse id = Some o)
  (Hexisting : Mongo.find_one (VOid o) c = Some d)
  (Hstart : AnnouncementUpdate.start_date req = Some "")
  (Hexp : strptime (effective req d "expiration_date") = Return e) :
  exists p c' (d' : Doc),
    update_announcement teachers id req username c = (Return p, c')
    /\ Mongo.find_one (VOid o) c' = Some d'
    /\ d' !! "start_date" = Some (VStr "")
    /\ (store_ok c ->
        forall today, exists listed,
          get_announcements today true c' = (Return listed, c')
          /\ ((exists q, q ∈ listed /\ q !! "id" = Some (VStr (Bson.str o)))
              <-> (d' !! "is_active" = Some (VBool true)
                   /\ exists x, d' !! "expiration_date" = Some (VStr x)
                                /\ String.leb (Date.isoformat today) x = true))).
Proof.
  assert (Heff : effective req d "start_date" = VStr "").
  { unfold effective, get_or. rewrite build_update_doc_lookup. simpl.
    now rewrite Hstart. }
  rewrite (update_announcement_existing _ _ _ _ _ o d Hteacher Hid Hexisting).
  rewrite (validate_update_passes req d e Hexp)
    by (left; now rewrite Heff).
  destruct (update_one_present (VOid o) _ c d Hexisting
              (build_update_doc_no_id req)) as (n & c' & Hu & Hfind & _ & _).
  pose proof (update_one_keeps_store (VOid o) req c) as Hkeep.
  rewrite Hu in *. simpl in *.
  destruct (updated_fields req d) as (_ & Hs & _). rewrite Hstart in Hs.
  simpl in Hs.
  eexists _, _, _. split; [reflexivity|]. split; [exact Hfind|].
  split; [exact Hs|]. intros Hok today.
  destruct (listed_by_id today c' o _ (Hkeep Hok) Hfind)
    as (listed & Hrun & Hiff).
  exists listed. split; [exact Hrun|]. rewrite Hiff.
  unfold visible, starts_by. rewrite Hs, string_leb_empty, andb_true_r.
  rewrite andb_true_iff, bool_decide_eq_true. split.
  - intros [Ha Hx]. split; [exact Ha|].
    destruct (_ !! "expiration_date") as [[| |x|]|]; try discriminate. eauto.
  - intros [Ha (x & -> & Hx)]. now split.
Qed.

Lemma update_with_empty_start_date_witness :
  exists p c' (d' : Doc),
    update_announcement Sample.teachers "665f1c2ab3d4e5f601234567"
      Sample.clear_start "mrodriguez" Sample.store = (Return p, c')
    /\ Mongo.find_one (VOid Sample.oid1) c' = Some d'
    /\ d' !! "start_date" = Some (VStr "").
Proof.
  destruct (update_with_empty_start_date Sample.teachers
              "665f1c2ab3d4e5f601234567" Sample.clear_start "mrodriguez"
              Sample.store Sample.oid1 Sample.stored1 (Date.mk 2025 6 30)
              eq_refl eq_refl eq_refl eq_refl eq_refl)
    as (p & c' & d' & Hrun & Hfind & Hs & _).
  exists p, c', d'. repeat split; assumption.
Defined.

(** ** The endpoints keep a collection of announcements *)

Lemma store_ok_empty : store_ok [].
Proof. split; [constructor | apply NoDup_nil_2]. Qed.

Lemma delete_one_keeps_store id (c : list Doc) :
  store_ok c -> store_ok (Mongo.delete_one id c).2.
Proof.
  intros [Htyped Hnd]. induction c as [|d c IH]; simpl; [now split|].
  apply Forall_cons in Htyped as [Hd Hc]. simpl in Hnd.
  apply NoDup_cons in Hnd as [Hnew Hnd].
  destruct (Mongo.has_id id d); simpl; [now split|].
  destruct (IH Hc Hnd) as [Htyped' Hnd'].
  destruct (Mongo.delete_one id c) as [res c'] eqn:E. simpl in *. split.
  - now constructor.
  - simpl. apply NoDup_cons. split; [|exact Hnd'].
    intros Hin. apply Hnew.
    destruct (Mongo.find_one id c) as [x|] eqn:Hf.
    + destruct (delete_one_present _ _ _ Hf) as (c'' & Hdel & _ & Hsub).
      rewrite E in Hdel. injection Hdel as _ <-.
      unfold ids in *. apply list_elem_of_In, in_map_iff in Hin as (y & Hy & Hyin).
      apply list_elem_of_In, in_map_iff. exists y. split; [exact Hy|].
      apply list_elem_of_In, Hsub, list_elem_of_In, Hyin.
    + rewrite (delete_one_absent _ _ Hf) in E. now injection E as _ <-.
Qed.

(** X7: whatever a request does and however it ends, a collection in
    which every document has the stored shape of an announcement and no
    key occurs twice is again such a collection afterwards. *)
Lemma endpoints_keep_store teachers today (c : list Doc) :
  store_ok c ->
  (forall active_only, store_ok (get_announcements today active_only c).2)
  /\ (forall new_id X username,
        store_ok (create_announcement teachers today new_id X username c).2)
  /\ (forall id req username,
        store_ok (update_announcement teachers id req username c).2)
  /\ (forall id username,
        store_ok (delete_announcement teachers id username c).2).
Proof.
  intros Hok. split; [|split; [|split]].
  - intros active_only. unfold get_announcements. run. exact Hok.
  - intros new_id X username.
    destruct (known_teacher teachers username) eqn:Ht.
    2:{ unfold create_announcement, known_teacher in *. now rewrite Ht. }
    rewrite (create_announcement_known _ _ _ _ _ _ Ht).
    destruct (validate_create today X) as [[]|e]; [|exact Hok].
    destruct (Mongo.find_one (VOid new_id) c) eqn:Hf; [exact Hok|]. simpl.
    destruct Hok as [Htyped Hnd]. split.
    + apply Forall_app. split; [exact Htyped|].
      constructor; [apply announcement_doc_dict | constructor].
    + unfold ids. rewrite map_app. apply NoDup_app. split; [exact Hnd|]. split.
      * intros x Hx Hx'. simpl in Hx'. apply list_elem_of_singleton in Hx'.
        subst x. now apply find_one_None in Hf.
      * simpl. apply NoDup_singleton.
  - intros id req username.
    destruct (known_teacher teachers username) eqn:Ht.
    2:{ unfold update_announcement, known_teacher in *. now rewrite Ht. }
    destruct (Bson.parse id) as [o|] eqn:Hid.
    2:{ unfold update_announcement, known_teacher in *. now rewrite Ht, Hid. }
    destruct (Mongo.find_one (VOid o) c) as [d|] eqn:Hd.
    2:{ unfold update_announcement, known_teacher in *. rewrite Ht, Hid. run.
        now rewrite Hd. }
    rewrite (update_announcement_existing _ _ _ _ _ o d Ht Hid Hd).
    destruct (validate_update _ _) as [[]|e]; [|exact Hok].
    now apply update_one_keeps_store.
  - intros id username.
    destruct (known_teacher teachers username) eqn:Ht.
    2:{ unfold delete_announcement, known_teacher in *. now rewrite Ht. }
    destruct (Bson.parse id) as [o|] eqn:Hid.
    2:{ unfold delete_announcement, known_teacher in *. now rewrite Ht, Hid. }
    rewrite (delete_announcement_run _ _ _ _ o Ht Hid).
    pose proof (delete_one_keeps_store (VOid o) c Hok) as Hdel.
    destruct (Mongo.delete_one (VOid o) c) as [res c']. simpl in *.
    now destruct (Mongo.deleted_count res =? 0).
Qed.

(** * Further properties of the endpoints *)

(** ** The full listing *)

Lemma collect_all today_s (cursor acc : list Doc) :
  Forall (fun d : Doc => is_Some (d !! "_id")) cursor ->
  collect false today_s cursor acc = Return (acc ++ map public cursor)%list.
Proof.
  intros H. revert acc. induction H as [|d cursor [k Hk] _ IH]; intros acc.
  - simpl. now rewrite app_nil_r.
  - cbn [collect andb]. rewrite (expose_id_public d k Hk).
    unfold mbind, Outcome_bind. rewrite IH. cbn [map].
    now rewrite <- app_assoc.
Qed.

Lemma list_filter_all {A} (f : A -> bool) (l : list A) :
  (forall x, f x = true) -> List.filter f l = l.
Proof.
  intros H. induction l as [|x l IH]; simpl; [reflexivity|].
  now rewrite H, IH.
Qed.

Lemma get_announcements_all today (c : list Doc) :
  Forall (fun d : Doc => is_Some (d !! "_id")) c ->
  get_announcements today false c = (Return (map public c), c).
Proof.
  intros H. unfold get_announcements. run. unfold Mongo.find.
  rewrite (list_filter_all _ c empty_query_matches).
  now rewrite collect_all.
Qed.

(** X1: with [active_only = false] the listing returns every stored
    document, whatever its flag and dates, in the order of the
    collection and in public shape, and leaves the collection as it
    was. *)
Theorem full_listing today (c : list Doc)
  (Hkeys : Forall (fun d : Doc => is_Some (d !! "_id")) c) :
  get_announcements today false c = (Return (map public c), c)
  /\ length (map public c) = length c
  /\ (forall d, d ∈ c -> public d ∈ map public c).
Proof.
  split; [now apply get_announcements_all|]. split; [apply length_map|].
  intros d Hd. now apply list_elem_of_In, in_map, list_elem_of_In.
Qed.

Lemma full_listing_witness :
  get_announcements Sample.today false Sample.store
  = (Return [public Sample.stored1; public Sample.stored2], Sample.store).
Proof.
  refine (proj1 (full_listing Sample.today Sample.store _)).
  repeat constructor; eexists; reflexivity.
Defined.

Lemma announcement_doc_has_id (c : list Doc) :
  Forall (fun d => announcement_doc d = true) c ->
  Forall (fun d : Doc => is_Some (d !! "_id")) c.
Proof.
  intros H. eapply Forall_impl; [exact H|]. intros d Hd.
  apply announcement_doc_inv in Hd as (o & _ & _ & _ & _ & Hid & _). eauto.
Qed.

(** X2: on a collection of stored announcements every record of the
    active view is also in the full listing. *)
Theorem active_listing_within_full today (c : list Doc)
  (Hc : Forall (fun d => announcement_doc d = true) c) :
  exists active full,
    get_announcements today true c = (Return active, c)
    /\ get_announcements today false c = (Return full, c)
    /\ (forall p, p ∈ active -> p ∈ full).
Proof.
  eexists _, _. split; [now apply get_announcements_active|].
  split; [now apply get_announcements_all, announcement_doc_has_id|].
  intros p Hp. apply list_elem_of_In, in_map_iff in Hp as (d & <- & Hd).
  apply filter_In in Hd as [Hd _]. now apply list_elem_of_In, in_map.
Qed.

Lemma active_listing_within_full_witness :
  exists active full,
    get_announcements Sample.today true Sample.store
    = (Return active, Sample.store)
    /\ get_announcements Sample.today false Sample.store
       = (Return full, Sample.store)
    /\ (forall p, p ∈ active -> p ∈ full).
Proof.
  apply (active_listing_within_full Sample.today Sample.store).
  repeat constructor.
Defined.

(** ** Identifiers *)




(** X4: for a known teacher and a well-formed identifier under which
    nothing is stored, update fails with status 404 whatever the request
    holds (its dates are not looked at), and nothing is inserted. *)
Theorem update_missing_not_found teachers id req username (c : list Doc) o
  (Hteacher : known_teacher teachers username = true)
  (Hid : Bson.parse id = Some o)
  (Hmissing : Mongo.find_one (VOid o) c = None) :
  update_announcement teachers id req username c = (Raise not_found, c).
Proof.
  unfold known_teacher in Hteacher. unfold update_announcement.
  rewrite Hteacher, Hid. run. now rewrite Hmissing.
Qed.

Lemma update_missing_not_found_witness :
  update_announcement Sample.teachers "665f1c2ab3d4e5f601234569"
    More.late_start "mrodriguez" Sample.store
  = (Raise not_found, Sample.store).
Proof.
  apply (update_missing_not_found _ _ _ _ _ Sample.oid3); reflexivity.
Defined.

(** ** The date checks of an update *)

Lemma get_union (f d : Doc) k : get (f ∪ d) k = get_or f k (get d k).
Proof.
  unfold get, get_or. rewrite lookup_union.
  destruct (f !! k), (d !! k); reflexivity.
Qed.

Lemma no_fields_empty req :
  bool_decide (build_update_doc req = ∅) = no_fields req.
Proof.
  destruct req as [[m|] [s|] [e|] [a|]]; unfold build_update_doc, set_if;
    simpl; try (apply bool_decide_eq_false, insert_non_empty).
  now apply bool_decide_eq_true.
Qed.

(** The three values [strptime] can give. *)
Lemma strptime_cases v :
  (exists d, strptime v = Return d)
  \/ strptime v = Raise ValueError \/ strptime v = Raise TypeError.
Proof.
  destruct v as [| |s|]; simpl; auto.
  destruct (Strptime.strptime s); eauto.
Qed.

(** When the request supplies a field, the checks pass exactly when the
    record that [$set] would produce keeps the date rule. *)
Lemma validate_update_dates_ok (upd d : Doc) :
  upd <> ∅ ->
  validate_update upd d = Return () <-> dates_ok (upd ∪ d) = true.
Proof.
  intros Hne. unfold validate_update, dates_ok.
  rewrite bool_decide_eq_false_2 by exact Hne. rewrite !get_union.
  set (exp := get_or upd "expiration_date" (get d "expiration_date")).
  set (start := get_or upd "start_date" (get d "start_date")).
  destruct (strptime_cases exp) as [[e ->] | [-> | ->]]; simpl;
    [|split; discriminate..].
  destruct (truthy start); simpl; [|tauto].
  destruct (strptime_cases start) as [[s ->] | [-> | ->]]; simpl;
    [|split; discriminate..].
  unfold Date.leb. destruct (Date.ltb e s); simpl; split; auto; discriminate.
Qed.

(** On a stored announcement the checks fail with one of the two date
    errors only. *)
Lemma validate_update_failure req (d : Doc) :
  announcement_doc d = true ->
  validate_update (build_update_doc req) d = Return ()
  \/ validate_update (build_update_doc req) d = Raise invalid_date_format
  \/ validate_update (build_update_doc req) d = Raise start_after_expiration.
Proof.
  intros Hd. apply (announcement_doc_update req) in Hd.
  apply announcement_doc_inv in Hd as (o & m & s & e & a & _ & _ & Hs & He & _).
  unfold validate_update. case_bool_decide; [now left|].
  rewrite <- !get_union. unfold get. rewrite Hs, He. simpl.
  destruct (Strptime.strptime e) as [ed|]; simpl; [|auto].
  destruct s as [s|]; simpl; [|auto].
  destruct (String.eqb s ""); simpl; [auto|].
  destruct (Strptime.strptime s) as [sd|]; simpl; [|auto].
  destruct (Date.ltb ed sd); auto.
Qed.

(** X5: for a known teacher and a stored announcement, update fails
    with status 400 exactly when the request supplies some field and the
    record it would produce breaks the date rule (expiration date not
    readable, or a non-empty start date not readable or after it);
    then nothing is written, and otherwise the update succeeds. *)
Theorem update_rejects_bad_dates teachers id req username (c : list Doc) o d
  (Hteacher : known_teacher teachers username = true)
  (Hid : Bson.parse id = Some o)
  (Hexisting : Mongo.find_one (VOid o) c = Some d)
  (Htyped : announcement_doc d = true) :
  fails_with 400 (update_announcement teachers id req username c).1
  = negb (no_fields req) && negb (dates_ok (build_update_doc req ∪ d))
  /\ (fails_with 400 (update_announcement teachers id req username c).1 = true ->
      (update_announcement teachers id req username c).2 = c)
  /\ (fails_with 400 (update_announcement teachers id req username c).1 = false ->
      succeeds (update_announcement teachers id req username c).1 = true).
Proof.
  rewrite (update_announcement_existing _ _ _ _ _ o d Hteacher Hid Hexisting).
  pose proof (no_fields_empty req) as Hnf.
  pose proof (validate_update_dates_ok (build_update_doc req) d) as Hiff.
  destruct (validate_update_failure req d Htyped) as [Hv | [Hv | Hv]];
    rewrite Hv; simpl.
  - split; [|split; [discriminate | reflexivity]].
    symmetry. destruct (no_fields req) eqn:E; [reflexivity|]. simpl.
    apply negb_false_iff, Hiff; [|exact Hv].
    now apply bool_decide_eq_false in Hnf.
  - split; [|split; [reflexivity | discriminate]].
    symmetry. apply andb_true_iff.
    assert (Hne : build_update_doc req <> ∅).
    { intros Hempty. unfold validate_update in Hv.
      rewrite bool_decide_eq_true_2 in Hv by exact Hempty. discriminate. }
    split.
    + apply negb_true_iff. rewrite <- Hnf. now apply bool_decide_eq_false.
    + apply negb_true_iff, not_true_iff_false. intros E.
      apply (Hiff Hne) in E. rewrite E in Hv. discriminate.
  - split; [|split; [reflexivity | discriminate]].
    symmetry. apply andb_true_iff.
    assert (Hne : build_update_doc req <> ∅).
    { intros Hempty. unfold validate_update in Hv.
      rewrite bool_decide_eq_true_2 in Hv by exact Hempty. discriminate. }
    split.
    + apply negb_true_iff. rewrite <- Hnf. now apply bool_decide_eq_false.
    + apply negb_true_iff, not_true_iff_false. intros E.
      apply (Hiff Hne) in E. rewrite E in Hv. discriminate.
Qed.

Lemma update_rejects_bad_dates_witness :
  update_announcement Sample.teachers "665f1c2ab3d4e5f601234567"
    More.late_start "mrodriguez" Sample.store
  = (Raise start_after_expiration, Sample.store)
  /\ fails_with 400
       (update_announcement Sample.teachers "665f1c2ab3d4e5f601234567"
          More.late_start "mrodriguez" Sample.store).1
     = negb (no_fields More.late_start)
       && negb (dates_ok (build_update_doc More.late_start ∪ Sample.stored1)).
Proof.
  split; [reflexivity|].
  apply (update_rejects_bad_dates Sample.teachers _ More.late_start _
           Sample.store Sample.oid1 Sample.stored1); reflexivity.
Defined.

(** ** The date rule is kept *)

Lemma delete_one_sub id (c : list Doc) :
  forall x, x ∈ (Mongo.delete_one id c).2 -> x ∈ c.
Proof.
  destruct (Mongo.find_one id c) as [d|] eqn:Hf.
  - destruct (delete_one_present _ _ _ Hf) as (c' & -> & _ & Hsub). exact Hsub.
  - now rewrite (delete_one_absent _ _ Hf).
Qed.

Lemma created_dates_ok today X o :
  validate_create today X = Return () ->
  dates_ok (<["_id" := VOid o]> (dict X)) = true.
Proof.
  rewrite validate_create_cases. destruct X as [m s e a]. simpl.
  assert (He : get (<["_id" := VOid o]>
                      (dict (AnnouncementCreate.mk m s e a))) "expiration_date"
               = VStr e) by reflexivity.
  assert (Hs : get (<["_id" := VOid o]>
                      (dict (AnnouncementCreate.mk m s e a))) "start_date"
               = opt_str s) by reflexivity.
  unfold dates_ok. rewrite He, Hs. simpl.
  destruct (Strptime.strptime e) as [ed|]; [|discriminate].
  destruct (Date.ltb ed today); [discriminate|].
  destruct s as [s|]; simpl; [|reflexivity].
  destruct (String.eqb s ""); simpl; [reflexivity|].
  destruct (Strptime.strptime s) as [sd|]; [|discriminate].
  unfold Date.leb. now destruct (Date.ltb ed sd).
Qed.

Lemma updated_dates_ok (upd d : Doc) :
  validate_update upd d = Return () -> dates_ok d = true ->
  dates_ok (upd ∪ d) = true.
Proof.
  intros Hv Hd. destruct (decide (upd = ∅)) as [-> | Hne].
  - now rewrite (left_id_L ∅ (∪) d).
  - now apply validate_update_dates_ok.
Qed.

(** X6: if every stored announcement keeps the date rule (readable
    expiration date; a non-empty start date readable and not after it),
    then so does every announcement stored after a create, an update or
    a delete, whatever the request and its outcome. *)
Theorem endpoints_keep_date_rule teachers today (c : list Doc)
  (Hc : Forall (fun d => dates_ok d = true) c) :
  (forall new_id X username,
      Forall (fun d => dates_ok d = true)
        (create_announcement teachers today new_id X username c).2)
  /\ (forall id req username,
        Forall (fun d => dates_ok d = true)
          (update_announcement teachers id req username c).2)
  /\ (forall id username,
        Forall (fun d => dates_ok d = true)
          (delete_announcement teachers id username c).2).
Proof.
  split; [|split].
  - intros new_id X username.
    destruct (known_teacher teachers username) eqn:Ht.
    2:{ unfold create_announcement, known_teacher in *. now rewrite Ht. }
    rewrite (create_announcement_known _ _ _ _ _ _ Ht).
    destruct (validate_create today X) as [[]|e] eqn:Hv; [|exact Hc].
    destruct (Mongo.find_one (VOid new_id) c); [exact Hc|]. simpl.
    apply Forall_app. split; [exact Hc|].
    constructor; [now apply (created_dates_ok today) | constructor].
  - intros id req username.
    destruct (known_teacher teachers username) eqn:Ht.
    2:{ unfold update_announcement, known_teacher in *. now rewrite Ht. }
    destruct (Bson.parse id) as [o|] eqn:Hid.
    2:{ unfold update_announcement, known_teacher in *. now rewrite Ht, Hid. }
    destruct (Mongo.find_one (VOid o) c) as [d|] eqn:Hd.
    2:{ unfold update_announcement, known_teacher in *. rewrite Ht, Hid. run.
        now rewrite Hd. }
    rewrite (update_announcement_existing _ _ _ _ _ o d Ht Hid Hd).
    destruct (validate_update _ _) as [[]|e] eqn:Hv; [|exact Hc].
    destruct (update_one_present (VOid o) _ c d Hd (build_update_doc_no_id req))
      as (n & c' & Hu & _ & Hall & _).
    rewrite Hu. simpl.
    assert (Hdok : dates_ok d = true).
    { apply find_one_Some in Hd as [Hin _]. rewrite Forall_forall in Hc.
      now apply Hc. }
    clear Hu Hd. induction Hall as [|x y c c' Hxy _ IH]; [constructor|].
    apply Forall_cons in Hc as [Hx Hc]. constructor; [|now apply IH].
    destruct Hxy as [-> | [-> ->]]; [exact Hx | now apply updated_dates_ok].
  - intros id username.
    destruct (known_teacher teachers username) eqn:Ht.
    2:{ unfold delete_announcement, known_teacher in *. now rewrite Ht. }
    destruct (Bson.parse id) as [o|] eqn:Hid.
    2:{ unfold delete_announcement, known_teacher in *. now rewrite Ht, Hid. }
    rewrite (delete_announcement_run _ _ _ _ o Ht Hid).
    pose proof (delete_one_sub (VOid o) c) as Hsub.
    destruct (Mongo.delete_one (VOid o) c) as [res c']. simpl in *.
    assert (Hc' : Forall (fun d => dates_ok d = true) c').
    { rewrite Forall_forall in *. intros x Hx. apply Hc, Hsub, Hx. }
    now destruct (Mongo.deleted_count res =? 0).
Qed.

Lemma endpoints_keep_date_rule_witness :
  Forall (fun d => dates_ok d = true) Sample.store
  /\ Forall (fun d => dates_ok d = true)
       (update_announcement Sample.teachers "665f1c2ab3d4e5f601234567"
          Sample.backdate "mrodriguez" Sample.store).2.
Proof.
  assert (H : Forall (fun d => dates_ok d = true) Sample.store)
    by (repeat constructor).
  split; [exact H|].
  apply (proj1 (proj2 (endpoints_keep_date_rule Sample.teachers Sample.today
                         Sample.store H))).
Defined.

Lemma endpoints_keep_store_witness :
  store_ok Sample.store
  /\ store_ok (create_announcement Sample.teachers Sample.today Sample.oid3
                 Sample.assembly "mrodriguez" Sample.store).2.
Proof.
  assert (H : store_ok Sample.store).
  { split; [repeat constructor|].
    apply (bool_decide_unpack _). vm_compute. reflexivity. }
  split; [exact H|].
  apply (proj1 (proj2 (endpoints_keep_store Sample.teachers Sample.today
                         Sample.store H))).
Defined.

(** ** No internal errors *)

(** X8: on a collection of stored announcements no listing, update or
    delete ends in an internal error (an uncaught exception or status
    500): the outcome is a result or one of the statuses 400, 401 and
    404.  The same holds for a create whose new key is not yet stored. *)
Theorem no_internal_error teachers today (c : list Doc)
  (Hc : Forall (fun d => announcement_doc d = true) c) :
  (forall active_only,
      internal_error (get_announcements today active_only c).1 = false)
  /\ (forall new_id X username,
        Mongo.find_one (VOid new_id) c = None ->
        internal_error
          (create_announcement teachers today new_id X username c).1 = false)
  /\ (forall id req username,
        internal_error (update_announcement teachers id req username c).1
        = false)
  /\ (forall id username,
        internal_error (delete_announcement teachers id username c).1 = false).
Proof.
  split; [|split; [|split]].
  - intros [|].
    + now rewrite get_announcements_active.
    + now rewrite get_announcements_all by now apply announcement_doc_has_id.
  - intros new_id X username Hfresh.
    destruct (known_teacher teachers username) eqn:Ht.
    2:{ unfold create_announcement, known_teacher in *. now rewrite Ht. }
    rewrite (create_announcement_known _ _ _ _ _ _ Ht), Hfresh.
    rewrite validate_create_cases.
    destruct (Strptime.strptime _) as [e|]; [|reflexivity].
    destruct (Date.ltb e today); [reflexivity|].
    destruct (AnnouncementCreate.start_date X) as [s|]; [|reflexivity].
    destruct (String.eqb s ""); [reflexivity|].
    destruct (Strptime.strptime s) as [sd|]; [|reflexivity].
    now destruct (Date.ltb e sd).
  - intros id req username.
    destruct (known_teacher teachers username) eqn:Ht.
    2:{ unfold update_announcement, known_teacher in *. now rewrite Ht. }
    destruct (Bson.parse id) as [o|] eqn:Hid.
    2:{ unfold update_announcement, known_teacher in *. now rewrite Ht, Hid. }
    destruct (Mongo.find_one (VOid o) c) as [d|] eqn:Hd.
    2:{ unfold update_announcement, known_teacher in *. rewrite Ht, Hid. run.
        now rewrite Hd. }
    rewrite (update_announcement_existing _ _ _ _ _ o d Ht Hid Hd).
    assert (Hdt : announcement_doc d = true).
    { apply find_one_Some in Hd as [Hin _]. rewrite Forall_forall in Hc.
      now apply Hc. }
    now destruct (validate_update_failure req d Hdt) as [-> | [-> | ->]].
  - intros id username.
    destruct (known_teacher teachers username) eqn:Ht.
    2:{ unfold delete_announcement, known_teacher in *. now rewrite Ht. }
    destruct (Bson.parse id) as [o|] eqn:Hid.
    2:{ unfold delete_announcement, known_teacher in *. now rewrite Ht, Hid. }
    rewrite (delete_announcement_run _ _ _ _ o Ht Hid).
    destruct (Mongo.delete_one (VOid o) c) as [res c']. simpl.
    now destruct (Mongo.deleted_count res =? 0).
Qed.

Lemma no_internal_error_witness :
  Forall (fun d => announcement_doc d = true) Sample.store
  /\ internal_error
       (update_announcement Sample.teachers "665f1c2ab3d4e5f601234567"
          More.late_start "mrodriguez" Sample.store).1 = false.
Proof.
  assert (H : Forall (fun d => announcement_doc d = true) Sample.store)
    by (repeat constructor).
  split; [exact H|].
  apply (proj1 (proj2 (proj2 (no_internal_error Sample.teachers Sample.today
                                Sample.store H)))).
Defined.

(** ** Deletion of a stored record *)

Lemma delete_one_split id (c : list Doc) d :
  Mongo.find_one id c = Some d ->
  exists l1 l2,
    c = (l1 ++ d :: l2)%list
    /\ Mongo.delete_one id c = ({| Mongo.deleted_count := 1 |}, (l1 ++ l2)%list)
    /\ Mongo.find_one id l1 = None.
Proof.
  induction c as [|x c IH]; simpl; [discriminate|].
  destruct (Mongo.has_id id x) eqn:E.
  - intros [= ->]. now exists [], c.
  - intros H. destruct (IH H) as (l1 & l2 & -> & Hdel & Hl1).
    exists (x :: l1), l2. rewrite Hdel. simpl. now rewrite E.
Qed.

(** X9: for a known teacher, delete of the identifier of a stored record
    answers with the confirmation message and removes exactly the first
    document with this key: the documents before and after it stay, in
    their order.  With unique keys nothing is stored under the identifier
    afterwards. *)
Theorem delete_removes_record teachers id username (c : list Doc) o d
  (Hteacher : known_teacher teachers username = true)
  (Hid : Bson.parse id = Some o)
  (Hexisting : Mongo.find_one (VOid o) c = Some d) :
  exists l1 l2,
    c = (l1 ++ d :: l2)%list
    /\ delete_announcement teachers id username c
       = (Return deleted_message, (l1 ++ l2)%list)
    /\ (NoDup (ids c) -> Mongo.find_one (VOid o) (l1 ++ l2) = None).
Proof.
  destruct (delete_one_split _ _ _ Hexisting) as (l1 & l2 & Hc & Hdel & _).
  exists l1, l2. split; [exact Hc|].
  rewrite (delete_announcement_run _ _ _ _ o Hteacher Hid), Hdel. simpl.
  split; [reflexivity|]. intros Hnd.
  destruct (delete_one_present _ _ _ Hexisting) as (c' & Hdel' & Hgone & _).
  rewrite Hdel in Hdel'. injection Hdel' as <-. now apply Hgone.
Qed.

Lemma delete_removes_record_witness :
  exists l1 l2,
    Sample.store = (l1 ++ Sample.stored2 :: l2)%list
    /\ delete_announcement Sample.teachers "665f1c2ab3d4e5f601234568"
         "mrodriguez" Sample.store
       = (Return deleted_message, (l1 ++ l2)%list).
Proof.
  destruct (delete_removes_record Sample.teachers "665f1c2ab3d4e5f601234568"
              "mrodriguez" Sample.store Sample.oid2 Sample.stored2
              eq_refl eq_refl eq_refl)
    as (l1 & l2 & Hsplit & Hdel & _).
  exists l1, l2. split; [exact Hsplit | exact Hdel].
Defined.

Lemma parse_str o :
  Bson.well_formed o = true -> Bson.parse (Bson.str o) = Some o.
Proof.
  unfold Bson.well_formed, Bson.parse, Bson.str. destruct o as [b]. simpl.
  intros H. apply andb_true_iff in H as [Hlen Hhex]. rewrite Hlen. simpl.
  assert (Hall : Bson.all_hex b = true /\ Bson.lower_all b = b).
  { clear Hlen. induction b as [|a b IH]; simpl in *; [now split|].
    apply andb_true_iff in Hhex as [Ha Hb].
    destruct (IH Hb) as [-> ->]. unfold Bson.is_hex, Bson.lower.
    unfold Bson.is_lower_hex in Ha. rewrite Ha. simpl. split; [reflexivity|].
    f_equal. destruct (Strptime.in_range "A" "F" a) eqn:Hup; [|reflexivity].
    exfalso. unfold Strptime.in_range in Ha, Hup. simpl in Ha, Hup.
    apply andb_true_iff in Hup as [H1 H2]. apply N.leb_le in H1, H2.
    apply orb_true_iff in Ha as [Ha|Ha];
      apply andb_true_iff in Ha as [H3 H4]; apply N.leb_le in H3, H4; lia. }
  destruct Hall as [-> ->]. reflexivity.
Qed.

Lemma delete_one_appended id (c : list Doc) (doc : Doc) :
  Mongo.find_one id c = None -> doc !! "_id" = Some id ->
  Mongo.delete_one id (c ++ [doc]) = ({| Mongo.deleted_count := 1 |}, c).
Proof.
  intros Hn Hd. induction c as [|x c IH]; simpl in *.
  - apply has_id_true in Hd. now rewrite Hd.
  - destruct (Mongo.has_id id x); [discriminate|]. now rewrite (IH Hn).
Qed.

Lemma create_success_known teachers today new_id X username (c c' : list Doc) p :
  create_announcement teachers today new_id X username c = (Return p, c') ->
  known_teacher teachers username = true.
Proof.
  intros H. destruct (known_teacher teachers username) eqn:Ht; [reflexivity|].
  unfold create_announcement, known_teacher in *. rewrite Ht in H.
  discriminate.
Qed.

(** X10: deleting a record right after its creation, under the
    identifier the creation returned, succeeds and gives back the
    collection as it was before the creation. *)
Theorem create_then_delete teachers today new_id X username (c c' : list Doc) p
  (Hcreated : create_announcement teachers today new_id X username c
              = (Return p, c'))
  (Hwf : Bson.well_formed new_id = true) :
  exists id,
    p !! "id" = Some (VStr id)
    /\ delete_announcement teachers id username c' = (Return deleted_message, c).
Proof.
  pose proof (create_success_known _ _ _ _ _ _ _ _ Hcreated) as Ht.
  apply create_announcement_success in Hcreated as (_ & Hfresh & -> & ->).
  exists (Bson.str new_id). split; [apply lookup_insert_eq|].
  rewrite (delete_announcement_run _ _ _ _ new_id Ht (parse_str _ Hwf)).
  rewrite (delete_one_appended _ _ _ Hfresh) by apply lookup_insert_eq.
  reflexivity.
Qed.

Lemma create_then_delete_witness :
  create_announcement Sample.teachers Sample.today Sample.oid3
    Sample.assembly "mrodriguez" Sample.store
  = (Return (<["id" := VStr (Bson.str Sample.oid3)]> (dict Sample.assembly)),
     (Sample.store ++ [<["_id" := VOid Sample.oid3]> (dict Sample.assembly)])%list)
  /\ exists id,
       (<["id" := VStr (Bson.str Sample.oid3)]> (dict Sample.assembly)) !! "id"
       = Some (VStr id)
       /\ delete_announcement Sample.teachers id "mrodriguez"
            (Sample.store
             ++ [<["_id" := VOid Sample.oid3]> (dict Sample.assembly)])%list
          = (Return deleted_message, Sample.store).
Proof.
  assert (H : create_announcement Sample.teachers Sample.today Sample.oid3
                Sample.assembly "mrodriguez" Sample.store
              = (Return (<["id" := VStr (Bson.str Sample.oid3)]>
                           (dict Sample.assembly)),
                 (Sample.store
                  ++ [<["_id" := VOid Sample.oid3]> (dict Sample.assembly)])%list))
    by reflexivity.
  split; [exact H|].
  apply (create_then_delete _ _ _ _ _ _ _ _ H). reflexivity.
Defined.

(** ** A created announcement in the active view *)

Lemma public_created X o :
  public (<["_id" := VOid o]> (dict X)) = <["id" := VStr (Bson.str o)]> (dict X).
Proof.
  unfold public, get. rewrite lookup_insert_eq. simpl.
  apply public_of_inserted, dict_no_id.
Qed.

(** X11: a record created as active, with dates in ISO form and a start
    date that is absent, empty or not after today, is in the active
    listing of the same day, as the record the creation returned. *)
Theorem created_announcement_is_listed teachers today new_id X username
  (c c' : list Doc) p
  (Hcreated : create_announcement teachers today new_id X username c
              = (Return p, c'))
  (Hc : Forall (fun d => announcement_doc d = true) c)
  (Htoday : Date.valid today = true)
  (Hactive : AnnouncementCreate.is_active X = true)
  (Hexp : is_iso (AnnouncementCreate.expiration_date X) = true)
  (Hstart : forall s, AnnouncementCreate.start_date X = Some s ->
              s = ""
              \/ (is_iso s = true
                  /\ exists sd, Strptime.strptime s = Some sd
                                /\ Date.leb sd today = true)) :
  exists listed,
    get_announcements today true c' = (Return listed, c') /\ p ∈ listed.
Proof.
  apply create_announcement_success in Hcreated as (Hv & _ & -> & ->).
  eexists. split.
  - apply get_announcements_active, Forall_app. split; [exact Hc|].
    constructor; [apply announcement_doc_dict | constructor].
  - rewrite <- (public_created X new_id). apply elem_of_map_filter.
    { apply elem_of_app. right. now apply list_elem_of_singleton. }
    rewrite validate_create_cases in Hv. destruct X as [m s e a].
    simpl in *. subst a.
    assert (Ha : (<["_id" := VOid new_id]>
                    (dict (AnnouncementCreate.mk m s e true))) !! "is_active"
                 = Some (VBool true)) by reflexivity.
    assert (He : (<["_id" := VOid new_id]>
                    (dict (AnnouncementCreate.mk m s e true)))
                 !! "expiration_date" = Some (VStr e)) by reflexivity.
    assert (Hs : (<["_id" := VOid new_id]>
                    (dict (AnnouncementCreate.mk m s e true))) !! "start_date"
                 = Some (opt_str s)) by reflexivity.
    unfold visible, starts_by. rewrite Ha, He, Hs.
    rewrite bool_decide_eq_true_2 by reflexivity. simpl.
    apply is_iso_inv in Hexp as (ed & Hed & Hvalid & ->). rewrite Hed in Hv.
    rewrite (isoformat_leb today ed Htoday Hvalid). unfold Date.leb.
    destruct (Date.ltb ed today); [discriminate|]. simpl.
    destruct s as [s|]; [|reflexivity]. simpl.
    destruct (Hstart s eq_refl) as [-> | (Hiso & sd & Hsd & Hle)];
      [reflexivity|].
    apply is_iso_inv in Hiso as (sd' & Hsd' & Hvalid' & ->).
    rewrite Hsd in Hsd'. injection Hsd' as <-.
    now rewrite (isoformat_leb sd today Hvalid' Htoday).
Qed.

Lemma created_announcement_is_listed_witness :
  create_announcement Sample.teachers Sample.today Sample.oid3
    More.sports_day "mrodriguez" Sample.store
  = (Return (<["id" := VStr (Bson.str Sample.oid3)]> (dict More.sports_day)),
     (Sample.store ++ [More.sports_day_doc])%list)
  /\ exists listed,
       get_announcements Sample.today true
         (Sample.store ++ [More.sports_day_doc])%list
       = (Return listed, (Sample.store ++ [More.sports_day_doc])%list)
       /\ <["id" := VStr (Bson.str Sample.oid3)]> (dict More.sports_day)
          ∈ listed.
Proof.
  assert (H : create_announcement Sample.teachers Sample.today Sample.oid3
                More.sports_day "mrodriguez" Sample.store
              = (Return (<["id" := VStr (Bson.str Sample.oid3)]>
                           (dict More.sports_day)),
                 (Sample.store ++ [More.sports_day_doc])%list))
    by reflexivity.
  split; [exact H|].
  apply (created_announcement_is_listed _ _ _ _ _ _ _ _ H);
    [repeat constructor | reflexivity | reflexivity | reflexivity |].
  intros s [= <-]. right. split; [reflexivity|].
  exists (Date.mk 2025 6 10). split; reflexivity.
Defined.

(** ** Repeating an update *)

Lemma update_one_again id (fields : Doc) (c : list Doc) :
  fields !! "_id" = None ->
  (Mongo.update_one id fields (Mongo.update_one id fields c).2).2
  = (Mongo.update_one id fields c).2.
Proof.
  intros Hk. induction c as [|x c IH]; simpl; [reflexivity|].
  destruct (Mongo.has_id id x) eqn:E; simpl.
  - assert (E' : Mongo.has_id id (fields ∪ x) = true).
    { apply has_id_true. apply has_id_true in E.
      now rewrite lookup_union_r. }
    rewrite E'. simpl.
    now rewrite (assoc_L (∪)), (idemp_L (∪) fields).
  - destruct (Mongo.update_one id fields c) as [res c'] eqn:Hc. simpl in *.
    rewrite E.
    destruct (Mongo.update_one id fields c') as [res' c''] eqn:Hc'.
    simpl in *. now rewrite IH.
Qed.

Lemma validate_update_again (fields d : Doc) :
  validate_update fields (fields ∪ d) = validate_update fields d.
Proof.
  unfold validate_update. rewrite !get_union.
  assert (H : forall k v, get_or fields k (get_or fields k v)
                          = get_or fields k v).
  { intros k v. unfold get_or. now destruct (fields !! k). }
  now rewrite !H.
Qed.

Lemma update_success_known teachers id req username (c c' : list Doc) p :
  update_announcement teachers id req username c = (Return p, c') ->
  known_teacher teachers username = true.
Proof.
  intros H. destruct (known_teacher teachers username) eqn:Ht; [reflexivity|].
  unfold update_announcement, known_teacher in *. rewrite Ht in H.
  discriminate.
Qed.

(** X12: an update that succeeded can be repeated: the same request on
    the collection it left succeeds again, returns the same record and
    changes nothing. *)
Theorem update_is_idempotent teachers id req username (c c' : list Doc) p
  (Hupdated : update_announcement teachers id req username c = (Return p, c')) :
  update_announcement teachers id req username c' = (Return p, c').
Proof.
  pose proof (update_success_known _ _ _ _ _ _ _ Hupdated) as Ht.
  apply update_announcement_success in Hupdated
    as (o & d & Hid & Hd & Hv & -> & ->).
  destruct (update_one_present (VOid o) _ c d Hd (build_update_doc_no_id req))
    as (n & c' & Hu & Hfind & _ & _).
  pose proof (update_one_again (VOid o) _ c (build_update_doc_no_id req))
    as Hagain.
  rewrite Hu in *. simpl in *.
  rewrite (update_announcement_existing _ _ _ _ _ o _ Ht Hid Hfind).
  rewrite validate_update_again, Hv, Hagain.
  now rewrite (assoc_L (∪)), (idemp_L (∪) (build_update_doc req)).
Qed.

Lemma update_is_idempotent_witness :
  update_announcement Sample.teachers "665f1c2ab3d4e5f601234567"
    More.reword "mrodriguez"
    [build_update_doc More.reword ∪ Sample.stored1; Sample.stored2]
  = (Return (public (build_update_doc More.reword ∪ Sample.stored1)),
     [build_update_doc More.reword ∪ Sample.stored1; Sample.stored2]).
Proof.
  apply (update_is_idempotent _ _ _ _ Sample.store). reflexivity.
Defined.

(** X13: a successful update neither adds nor removes a document nor
    changes a key, and the record it returns is the public shape of the
    document then stored under the identifier. *)
Theorem update_keeps_keys teachers id req username (c c' : list Doc) p
  (Hupdated : update_announcement teachers id req username c = (Return p, c')) :
  ids c' = ids c
  /\ length c' = length c
  /\ exists o stored,
       Bson.parse id = Some o
       /\ Mongo.find_one (VOid o) c' = Some stored
       /\ p = public stored.
Proof.
  apply update_announcement_success in Hupdated
    as (o & d & Hid & Hd & _ & -> & ->).
  destruct (update_one_present (VOid o) _ c d Hd (build_update_doc_no_id req))
    as (n & c' & Hu & Hfind & _ & Hids).
  rewrite Hu. simpl. split; [exact Hids|]. split.
  - unfold ids in Hids. apply (f_equal length) in Hids.
    now rewrite !length_map in Hids.
  - exists o, (build_update_doc req ∪ d). now repeat split.
Qed.

Lemma update_keeps_keys_witness :
  ids [build_update_doc More.reword ∪ Sample.stored1; Sample.stored2]
  = ids Sample.store.
Proof.
  refine (proj1 (update_keeps_keys Sample.teachers "665f1c2ab3d4e5f601234567"
                   More.reword "mrodriguez" Sample.store _
                   (public (build_update_doc More.reword ∪ Sample.stored1))
                   _)).
  reflexivity.
Defined.

(** ** Listings after a delete *)

Lemma key_of_public (y : Doc) o' o :
  y !! "_id" = Some (VOid o') ->
  public y !! "id" = Some (VStr (Bson.str o)) -> o' = o.
Proof.
  intros Hk Hid. destruct (public_shape y _ Hk) as [_ Hp].
  rewrite Hp in Hid. injection Hid as H. destruct o, o'. simpl in H.
  now subst.
Qed.

(** X14: after a successful delete on a collection of announcements
    with unique keys, no listing, active or full, has a record with the
    deleted identifier. *)
Theorem deleted_record_not_listed teachers today id username (c c' : list Doc) r
  (Hok : store_ok c)
  (Hdeleted : delete_announcement teachers id username c = (Return r, c')) :
  exists o active full,
    Bson.parse id = Some o
    /\ get_announcements today true c' = (Return active, c')
    /\ get_announcements today false c' = (Return full, c')
    /\ (forall q, q ∈ active \/ q ∈ full ->
          q !! "id" <> Some (VStr (Bson.str o))).
Proof.
  destruct (known_teacher teachers username) eqn:Ht.
  2:{ unfold delete_announcement, known_teacher in *. rewrite Ht in Hdeleted.
      discriminate. }
  destruct (Bson.parse id) as [o|] eqn:Hid.
  2:{ unfold delete_announcement, known_teacher in *.
      rewrite Ht, Hid in Hdeleted. discriminate. }
  pose proof (delete_one_keeps_store (VOid o) c Hok) as Hok'.
  rewrite (delete_announcement_run _ _ _ _ o Ht Hid) in Hdeleted.
  destruct (Mongo.find_one (VOid o) c) as [d|] eqn:Hd.
  2:{ rewrite (delete_one_absent _ _ Hd) in Hdeleted. discriminate. }
  destruct (delete_one_present _ _ _ Hd) as (c1 & Hdel & Hgone & _).
  rewrite Hdel in *. simpl in *. injection Hdeleted as _ <-.
  specialize (Hgone (proj2 Hok)). destruct Hok' as [Htyped Hnd].
  exists o. eexists _, _. split; [reflexivity|].
  split; [now apply get_announcements_active|].
  split; [now apply get_announcements_all, announcement_doc_has_id|].
  assert (Hfull : forall q, q ∈ map public c1 ->
                    q !! "id" <> Some (VStr (Bson.str o))).
  { intros q Hq Hqid.
    apply list_elem_of_In, in_map_iff in Hq as (y & <- & Hy).
    apply list_elem_of_In in Hy.
    assert (Hyt : announcement_doc y = true)
      by (rewrite Forall_forall in Htyped; now apply Htyped).
    apply announcement_doc_inv in Hyt as (o' & _ & _ & _ & _ & Hyk & _).
    rewrite (key_of_public y o' o Hyk Hqid) in Hyk.
    rewrite (find_one_unique _ _ _ Hnd Hy Hyk) in Hgone. discriminate. }
  intros q [Hq | Hq]; [|now apply Hfull].
  apply Hfull. apply list_elem_of_In, in_map_iff in Hq as (y & <- & Hy).
  apply filter_In in Hy as [Hy _]. now apply list_elem_of_In, in_map.
Qed.

Lemma deleted_record_not_listed_witness :
  exists o active full,
    Bson.parse "665f1c2ab3d4e5f601234567" = Some o
    /\ get_announcements Sample.today true [Sample.stored2]
       = (Return active, [Sample.stored2])
    /\ get_announcements Sample.today false [Sample.stored2]
       = (Return full, [Sample.stored2])
    /\ (forall q, q ∈ active \/ q ∈ full ->
          q !! "id" <> Some (VStr (Bson.str o))).
Proof.
  apply (deleted_record_not_listed Sample.teachers Sample.today
           "665f1c2ab3d4e5f601234567" "mrodriguez" Sample.store
           [Sample.stored2] deleted_message).
  - split; [repeat constructor|].
    apply (bool_decide_unpack _). vm_compute. reflexivity.
  - reflexivity.
Defined.

(** ** The date window of a record *)

(** X15: in a collection of announcements with unique keys, a record
    whose dates are stored in ISO form is in the active listing of a day
    exactly when it is active and the day lies between its start date,
    if it has one, and its expiration date, both included. *)
Theorem listed_within_date_window today (c : list Doc) o d
  (Hok : store_ok c)
  (Hstored : Mongo.find_one (VOid o) c = Some d)
  (Htoday : Date.valid today = true)
  (Hiso : iso_dates d = true) :
  exists listed,
    get_announcements today true c = (Return listed, c)
    /\ ((exists q, q ∈ listed /\ q !! "id" = Some (VStr (Bson.str o)))
        <-> calendar_visible today d = true).
Proof.
  destruct (listed_by_id today c o d Hok Hstored) as (listed & Hrun & Hiff).
  exists listed. split; [exact Hrun|].
  now rewrite Hiff, (visible_calendar today d Htoday Hiso).
Qed.

Lemma listed_within_date_window_witness :
  exists listed,
    get_announcements Sample.today true Sample.store
    = (Return listed, Sample.store)
    /\ ((exists q, q ∈ listed /\ q !! "id" = Some (VStr (Bson.str Sample.oid2)))
        <-> calendar_visible Sample.today Sample.stored2 = true).
Proof.
  apply (listed_within_date_window Sample.today Sample.store Sample.oid2
           Sample.stored2); try reflexivity.
  split; [repeat constructor|].
  apply (bool_decide_unpack _). vm_compute. reflexivity.
Defined.

(** ** Boundary of the creation check *)

Lemma date_ltb_irrefl d : Date.ltb d d = false.
Proof.
  unfold Date.ltb.
  rewrite !Z.ltb_irrefl, !Z.eqb_refl. reflexivity.
Qed.

(** X16: for a known teacher and a new key, a creation whose expiration
    date is today's date in ISO form, with no start date or an empty
    one, is accepted: only an expiration date strictly before today is
    refused. *)
Theorem create_accepts_today teachers today new_id X username (c : list Doc)
  (Hteacher : known_teacher teachers username = true)
  (Hfresh : Mongo.find_one (VOid new_id) c = None)
  (Htoday : Date.valid today = true)
  (Hexp : AnnouncementCreate.expiration_date X = Date.isoformat today)
  (Hstart : AnnouncementCreate.start_date X = None
            \/ AnnouncementCreate.start_date X = Some "") :
  create_announcement teachers today new_id X username c
  = (Return (<["id" := VStr (Bson.str new_id)]> (dict X)),
     (c ++ [<["_id" := VOid new_id]> (dict X)])%list).
Proof.
  rewrite (create_announcement_known _ _ _ _ _ _ Hteacher), Hfresh.
  rewrite validate_create_cases, Hexp, (strptime_isoformat today Htoday).
  rewrite date_ltb_irrefl. now destruct Hstart as [-> | ->].
Qed.

Lemma create_accepts_today_witness :
  create_announcement Sample.teachers Sample.today Sample.oid3
    (AnnouncementCreate.mk "Early closing" None "2025-06-10" true)
    "mrodriguez" Sample.store
  = (Return (<["id" := VStr (Bson.str Sample.oid3)]>
               (dict (AnnouncementCreate.mk "Early closing" None
                        "2025-06-10" true))),
     (Sample.store
      ++ [<["_id" := VOid Sample.oid3]>
            (dict (AnnouncementCreate.mk "Early closing" None
                     "2025-06-10" true))])%list).
Proof.
  apply (create_accepts_today Sample.teachers Sample.today Sample.oid3
           (AnnouncementCreate.mk "Early closing" None "2025-06-10" true));
    try reflexivity.
  now left.
Defined.

(** ** Dates as strings *)

(** X17: [strptime] reads back the ISO string of every date, and on the
    ISO strings of two dates the order of the strings, which the listing
    compares, is the order of the dates. *)
Theorem iso_strings_order_as_dates a b
  (Ha : Date.valid a = true) (Hb : Date.valid b = true) :
  Strptime.strptime (Date.isoformat a) = Some a
  /\ is_iso (Date.isoformat a) = true
  /\ String.leb (Date.isoformat a) (Date.isoformat b) = Date.leb a b
  /\ String.ltb (Date.isoformat a) (Date.isoformat b) = Date.ltb a b.
Proof.
  split; [now apply strptime_isoformat|]. split.
  - unfold is_iso. rewrite (strptime_isoformat a Ha). apply String.eqb_refl.
  - split; [now apply isoformat_leb|].
    rewrite string_ltb_leb, (isoformat_leb b a Hb Ha). unfold Date.leb.
    apply negb_involutive.
Qed.

Lemma iso_strings_order_as_dates_witness :
  Strptime.strptime (Date.isoformat (Date.mk 2025 6 10))
  = Some (Date.mk 2025 6 10)
  /\ is_iso (Date.isoformat (Date.mk 2025 6 10)) = true
  /\ String.leb (Date.isoformat (Date.mk 2025 6 10))
       (Date.isoformat (Date.mk 2024 12 31))
     = Date.leb (Date.mk 2025 6 10) (Date.mk 2024 12 31)
  /\ String.ltb (Date.isoformat (Date.mk 2025 6 10))
       (Date.isoformat (Date.mk 2024 12 31))
     = Date.ltb (Date.mk 2025 6 10) (Date.mk 2024 12 31).
Proof.
  apply (iso_strings_order_as_dates (Date.mk 2025 6 10) (Date.mk 2024 12 31));
    reflexivity.
Defined.

Lemma group_m_single m k :
  2 <= m <= 9 ->
  Strptime.group_m (String (Date.digit m) (String "-" k)) = [(m, String "-" k)].
Proof.
  intros Hm.
  assert (H : m = 2 \/ m = 3 \/ m = 4 \/ m = 5 \/ m = 6 \/ m = 7 \/ m = 8
              \/ m = 9) by lia.
  repeat (destruct H as [-> | H]); try subst m; reflexivity.
Qed.

Lemma days_in_month_min y m : 28 <= Date.days_in_month y m.
Proof.
  unfold Date.days_in_month.
  destruct (m =? 2); [destruct (Date.is_leap y); lia|].
  destruct (_ || _); lia.
Qed.

(** The date string of year [y], month [m] without leading zero, and day
    [dd]. *)
Lemma strptime_unpadded_month y m dd :
  1 <= y <= 9999 -> 2 <= m <= 9 -> 1 <= dd <= 28 ->
  Strptime.strptime
    (Date.pad4 y (String "-" (String (Date.digit m)
                                (String "-" (Date.pad2 dd "")))))
  = Some (Date.mk y m dd).
Proof.
  intros Hy Hm Hdd. unfold Strptime.strptime, Strptime.matches.
  rewrite group_Y_pad4 by lia.
  destruct (group_d_pad2 dd) as [rest_d Ed]; [lia|].
  cbn [mbind list_bind Strptime.dash app]. rewrite group_m_single by exact Hm.
  cbn [mbind list_bind Strptime.dash app]. rewrite Ed.
  cbn [mbind list_bind app].
  assert (Hv : Date.valid (Date.mk y m dd) = true).
  { unfold Date.valid. simpl. pose proof (days_in_month_min y m).
    repeat (apply andb_true_iff; split); apply Z.leb_le; lia. }
  now rewrite Hv.
Qed.

Lemma unpadded_month_string_order today m k :
  Date.valid today = true -> 10 <= Date.month today -> 2 <= m <= 9 ->
  String.leb (Date.isoformat today)
    (Date.pad4 (Date.year today) (String "-" (String (Date.digit m) k)))
  = true.
Proof.
  intros Hv Hlate Hm. apply valid_bounds in Hv as (Hy & Hmt & _).
  unfold String.leb, Date.isoformat. rewrite pad4_compare by lia.
  rewrite Z.compare_refl. cbn [String.compare].
  change (Ascii.compare "-" "-") with Eq. cbv iota.
  unfold Date.pad2. cbn [String.compare]. rewrite digit_compare.
  assert (H : (Date.month today / 10) mod 10 = 1)
    by (Z.div_mod_to_equations; lia).
  rewrite H, (Z.mod_small m 10) by lia.
  assert (Hlt : (1 ?= m) = Lt) by (apply Z.compare_lt_iff; lia).
  now rewrite Hlt.
Qed.

(** X18: a date string with a one-digit month (2 to 9) is accepted by
    the date check but is not ordered as a date: an active announcement
    without start date whose expiration date is stored in this form is
    still in the active listing in the months October to December of
    that year, although its expiration date, as [strptime] reads it, is
    before today. *)
Theorem unpadded_month_outlives_expiration today (c : list Doc) (d : Doc) m dd
  (Hc : Forall (fun x => announcement_doc x = true) c)
  (Hd : d ∈ c)
  (Htoday : Date.valid today = true)
  (Hlate : 10 <= Date.month today)
  (Hm : 2 <= m <= 9)
  (Hdd : 1 <= dd <= 28)
  (Hactive : d !! "is_active" = Some (VBool true))
  (Hexp : d !! "expiration_date"
          = Some (VStr (Date.pad4 (Date.year today)
                          (String "-" (String (Date.digit m)
                                         (String "-" (Date.pad2 dd "")))))))
  (Hstart : d !! "start_date" = Some VNone) :
  Strptime.strptime
    (Date.pad4 (Date.year today)
       (String "-" (String (Date.digit m) (String "-" (Date.pad2 dd "")))))
  = Some (Date.mk (Date.year today) m dd)
  /\ Date.ltb (Date.mk (Date.year today) m dd) today = true
  /\ exists listed,
       get_announcements today true c = (Return listed, c)
       /\ public d ∈ listed.
Proof.
  pose proof (valid_bounds today Htoday) as (Hy & _ & _).
  split; [now apply strptime_unpadded_month|]. split.
  - unfold Date.ltb. simpl. rewrite Z.eqb_refl.
    assert (H : (m <? Date.month today) = true) by (apply Z.ltb_lt; lia).
    rewrite H. simpl. apply orb_true_r.
  - eexists. split; [now apply get_announcements_active|].
    apply elem_of_map_filter; [exact Hd|].
    unfold visible, starts_by. rewrite Hactive, Hexp, Hstart.
    rewrite bool_decide_eq_true_2 by reflexivity.
    now rewrite unpadded_month_string_order.
Qed.

Lemma unpadded_month_outlives_expiration_witness :
  Strptime.strptime "2025-6-15" = Some (Date.mk 2025 6 15)
  /\ Date.ltb (Date.mk 2025 6 15) (Date.mk 2025 10 1) = true
  /\ exists listed,
       get_announcements (Date.mk 2025 10 1) true
         [<["_id" := VOid Sample.oid3]>
            (dict (AnnouncementCreate.mk "Summer fair" None "2025-6-15" true))]
       = (Return listed,
          [<["_id" := VOid Sample.oid3]>
             (dict (AnnouncementCreate.mk "Summer fair" None "2025-6-15" true))])
       /\ public (<["_id" := VOid Sample.oid3]>
                    (dict (AnnouncementCreate.mk "Summer fair" None
                             "2025-6-15" true)))
          ∈ listed.
Proof.
  apply (unpadded_month_outlives_expiration (Date.mk 2025 10 1)
           [<["_id" := VOid Sample.oid3]>
              (dict (AnnouncementCreate.mk "Summer fair" None "2025-6-15" true))]
           (<["_id" := VOid Sample.oid3]>
              (dict (AnnouncementCreate.mk "Summer fair" None "2025-6-15" true)))
           6 15);
    try reflexivity; try lia.
  - repeat constructor.
  - apply list_elem_of_singleton. reflexivity.
Defined.
